(** * SitConnect: the local persistence layer

    A shallow embedding of the database module ([initDatabase],
    [seedSampleData], [openDB]) and of the listing service
    ([createListing] ... [getSavedListingsForSitter]) together with the
    part of the SQLite engine that their SQL statements exercise.

    The embedding threads a [Runtime] through every call: the module-level
    connection handle [db], the content of the database file, and the
    system clock read by [new Date().toISOString()].  A call settles as a
    fulfilled or a rejected promise and always leaves a runtime behind, so
    that a statement failing half-way through seeding keeps the rows that
    were already written. *)

From Stdlib Require Import ZArith List String Ascii Bool Lia.
From Stdlib Require Import Permutation Sorted.
Import ListNotations.

Local Open Scope Z_scope.

(* ------------------------------------------------------------------ *)
(** ** Domain types (types/index.ts) *)

Inductive SitterType : Type := PET | HOUSE | BOTH.

(** The string value of each enum member; this is the text stored in the
    [sitterType] column and compared by the [WHERE] clauses. *)
Definition SitterType_value (t : SitterType) : string :=
  match t with
  | PET => "pet"
  | HOUSE => "house"
  | BOTH => "both"
  end.

Record Listing : Type := mkListing {
  id : Z;
  creatorRoleId : Z;
  sitterType : SitterType;
  location : string;
  startDate : string;
  endDate : string;
  description : string;
  createdAt : string
}.

(** A row of [saved_listings]. *)
Record SavedListing : Type := mkSavedListing {
  saved_id : Z;
  listingId : Z;
  sitterRoleId : Z;
  savedAt : string
}.

(** The argument of [filterListingsByType]: [SitterType | "all"]. *)
Inductive TypeFilter : Type :=
| OfType (t : SitterType)
| All.

(* ------------------------------------------------------------------ *)
(** ** The store *)

(** A table with an [INTEGER PRIMARY KEY AUTOINCREMENT] column: its rows
    in rowid order and its entry in [sqlite_sequence], the largest rowid
    ever handed out (0 before the first insert). *)
Record Table (R : Type) : Type := mkTable {
  rows : list R;
  sqlite_sequence : Z
}.
Arguments mkTable {R} _ _.
Arguments rows {R} _.
Arguments sqlite_sequence {R} _.

(** The file sitconnect.db.  [None] is a table that was never created. *)
Record Database : Type := mkDatabase {
  listings : option (Table Listing);
  saved_listings : option (Table SavedListing)
}.

(** An open connection.  Foreign-key enforcement is a setting of the
    connection, not of the file: SQLite checks references and runs
    [ON DELETE CASCADE] only on a connection on which
    [PRAGMA foreign_keys = ON] was executed, and a connection starts with
    the setting off. *)
Record SQLiteDatabase : Type := mkConnection {
  foreign_keys : bool
}.

Record Runtime : Type := mkRuntime {
  db : option SQLiteDatabase;      (* let db: SQLiteDatabase | null *)
  file : Database;
  clock : nat -> string;           (* the n-th reading of the system clock *)
  reads : nat                      (* readings taken so far *)
}.

Definition with_db (c : option SQLiteDatabase) (w : Runtime) : Runtime :=
  mkRuntime c (file w) (clock w) (reads w).

Definition with_file (f : Database) (w : Runtime) : Runtime :=
  mkRuntime (db w) f (clock w) (reads w).

Definition with_listings (t : Table Listing) (f : Database) : Database :=
  mkDatabase (Some t) (saved_listings f).

Definition with_saved_listings (t : Table SavedListing) (f : Database)
  : Database :=
  mkDatabase (listings f) (Some t).

(** The database file before the application ran for the first time. *)
Definition empty_database : Database := mkDatabase None None.

(** A process that has just started on a device without a database. *)
Definition first_launch (clk : nat -> string) : Runtime :=
  mkRuntime None empty_database clk 0.

(* ------------------------------------------------------------------ *)
(** ** Promises *)

Inductive SQLiteError : Type :=
| NoSuchTable (name : string)
| DatabaseFull
| ForeignKeyConstraintFailed.

Inductive Settled (A : Type) : Type :=
| Fulfilled (a : A)
| Rejected (e : SQLiteError).
Arguments Fulfilled {A} _.
Arguments Rejected {A} _.

Definition Promise (A : Type) : Type := Runtime -> Settled A * Runtime.

Definition ret {A} (a : A) : Promise A := fun w => (Fulfilled a, w).

Definition throw {A} (e : SQLiteError) : Promise A :=
  fun w => (Rejected e, w).

(** [await m] followed by [k]; a rejection skips [k].  Every function of
    the source catches only to log and rethrow, which is the same. *)
Definition bind {A B} (m : Promise A) (k : A -> Promise B) : Promise B :=
  fun w =>
    match m w with
    | (Fulfilled a, w') => k a w'
    | (Rejected e, w') => (Rejected e, w')
    end.

Notation "x <- m ;; k" := (bind m (fun x => k))
  (at level 61, m at next level, right associativity).
Notation "m ;;; k" := (bind m (fun _ => k))
  (at level 61, right associativity).

Definition get_file : Promise Database := fun w => (Fulfilled (file w), w).

Definition put_file (f : Database) : Promise unit :=
  fun w => (Fulfilled tt, with_file f w).

(** [for (const x of xs) await f(x)] *)
Fixpoint for_of {A} (xs : list A) (f : A -> Promise unit) : Promise unit :=
  match xs with
  | [] => ret tt
  | x :: xs' => f x ;;; for_of xs' f
  end.

(** [new Date().toISOString()] *)
Definition Date_now_toISOString : Promise string :=
  fun w =>
    (Fulfilled (clock w (reads w)),
     mkRuntime (db w) (file w) (clock w) (S (reads w))).

(* ------------------------------------------------------------------ *)
(** ** The SQLite engine, as far as the statements use it *)

(** [ORDER BY key DESC] on a text column (BINARY collation).  The engine
    promises no order among rows with equal keys; this sorter keeps them
    in scan order. *)
Section OrderBy.
Context {R : Type} (key : R -> string).

Fixpoint place (x : R) (sorted : list R) : list R :=
  match sorted with
  | [] => [x]
  | y :: rest =>
      if String.leb (key y) (key x) then x :: y :: rest
      else y :: place x rest
  end.

Fixpoint order_by_desc (rs : list R) : list R :=
  match rs with
  | [] => []
  | r :: rs' => place r (order_by_desc rs')
  end.

(** [a] may stand before [b] in a descending result. *)
Definition desc (a b : R) : Prop := String.leb (key b) (key a) = true.
End OrderBy.

Definition max_rowid : Z := 9223372036854775807.

(** Rowids reach the service as JS numbers ([lastInsertRowId], the [id]
    of a row read back).  Every integer up to 2^53 is a number; 2^53 + 1
    is the first that is not and comes back rounded.  The embedding
    writes such a number as the integer it stands for, which is exact
    for rowids up to this bound. *)
Definition max_exact_integer : Z := 9007199254740992.

Definition largest_rowid {R} (rowid : R -> Z) (rs : list R) : Z :=
  fold_right (fun r m => Z.max (rowid r) m) 0 rs.

(** The rowid an AUTOINCREMENT table gives to the next row: one more than
    the larger of the largest rowid in the table and [sqlite_sequence];
    SQLITE_FULL when that was the largest possible rowid. *)
Definition new_rowid {R} (rowid : R -> Z) (t : Table R) : option Z :=
  let largest := Z.max (sqlite_sequence t) (largest_rowid rowid (rows t)) in
  if largest <? max_rowid then Some (largest + 1) else None.

Definition table_listings : Promise (Table Listing) :=
  f <- get_file ;;
  match listings f with
  | Some t => ret t
  | None => throw (NoSuchTable "listings")
  end.

Definition table_saved_listings : Promise (Table SavedListing) :=
  f <- get_file ;;
  match saved_listings f with
  | Some t => ret t
  | None => throw (NoSuchTable "saved_listings")
  end.

Definition put_listings (t : Table Listing) : Promise unit :=
  f <- get_file ;; put_file (with_listings t f).

Definition put_saved_listings (t : Table SavedListing) : Promise unit :=
  f <- get_file ;; put_file (with_saved_listings t f).

(** [CREATE TABLE IF NOT EXISTS listings (...)] *)
Definition create_table_listings : Promise unit :=
  f <- get_file ;;
  match listings f with
  | Some _ => ret tt
  | None => put_file (with_listings (mkTable [] 0) f)
  end.

(** [CREATE TABLE IF NOT EXISTS saved_listings (... FOREIGN KEY (listingId)
    REFERENCES listings(id) ON DELETE CASCADE)] *)
Definition create_table_saved_listings : Promise unit :=
  f <- get_file ;;
  match saved_listings f with
  | Some _ => ret tt
  | None => put_file (with_saved_listings (mkTable [] 0) f)
  end.

(** [SELECT COUNT( * ) as count FROM listings] *)
Definition count_listings : Promise Z :=
  t <- table_listings ;; ret (Z.of_nat (List.length (rows t))).

(** [INSERT INTO listings (creatorRoleId, ..., createdAt) VALUES (?, ...)];
    resolves to [lastInsertRowId]. *)
Definition insert_into_listings
    (creator : Z) (type : SitterType)
    (loc start_ end_ descr created : string) : Promise Z :=
  t <- table_listings ;;
  match new_rowid id t with
  | None => throw DatabaseFull
  | Some n =>
      put_listings
        (mkTable
           ((rows t ++ [mkListing n creator type loc start_ end_ descr created])%list)
           n) ;;;
      ret n
  end.

(** [SELECT * FROM listings [WHERE cond] ORDER BY createdAt DESC] *)
Definition select_listings (cond : Listing -> bool) : Promise (list Listing) :=
  t <- table_listings ;;
  ret (order_by_desc createdAt (filter cond (rows t))).

(** [SELECT * FROM listings WHERE id = ?], first row. *)
Definition first_listing_with_id (i : Z) : Promise (option Listing) :=
  t <- table_listings ;;
  ret (find (fun l => id l =? i) (rows t)).

(** [UPDATE listings SET sitterType = ?, location = ?, startDate = ?,
    endDate = ?, description = ? WHERE id = ?] *)
Definition set_columns (type : SitterType) (loc start_ end_ descr : string)
    (l : Listing) : Listing :=
  mkListing (id l) (creatorRoleId l) type loc start_ end_ descr (createdAt l).

Definition update_listings_where_id
    (type : SitterType) (loc start_ end_ descr : string) (i : Z)
  : Promise unit :=
  t <- table_listings ;;
  put_listings
    (mkTable
       (map (fun l => if id l =? i then set_columns type loc start_ end_ descr l
                      else l)
            (rows t))
       (sqlite_sequence t)).

(** [DELETE FROM listings WHERE id = ?].  When the connection enforces
    foreign keys and a parent row goes, [ON DELETE CASCADE] deletes the
    [saved_listings] rows that reference it. *)
Definition delete_from_listings_where_id (conn : SQLiteDatabase) (i : Z)
  : Promise unit :=
  t <- table_listings ;;
  put_listings
    (mkTable (filter (fun l => negb (id l =? i)) (rows t))
             (sqlite_sequence t)) ;;;
  f <- get_file ;;
  match saved_listings f with
  | Some s =>
      if foreign_keys conn && existsb (fun l => id l =? i) (rows t)
      then put_saved_listings
             (mkTable (filter (fun sl => negb (listingId sl =? i)) (rows s))
                      (sqlite_sequence s))
      else ret tt
  | None => ret tt
  end.

(** [SELECT * FROM saved_listings WHERE listingId = ? AND sitterRoleId = ?],
    first row. *)
Definition same_pair (l s : Z) (sl : SavedListing) : bool :=
  (listingId sl =? l) && (sitterRoleId sl =? s).

Definition first_saved_with_pair (l s : Z) : Promise (option SavedListing) :=
  t <- table_saved_listings ;;
  ret (find (same_pair l s) (rows t)).

(** [INSERT INTO saved_listings (listingId, sitterRoleId, savedAt)
    VALUES (?, ?, ?)].  An enforcing connection rejects a row whose
    parent listing does not exist. *)
Definition insert_into_saved_listings (conn : SQLiteDatabase)
    (l s : Z) (saved : string) : Promise unit :=
  t <- table_saved_listings ;;
  f <- get_file ;;
  let parent :=
    match listings f with
    | Some p => existsb (fun r => id r =? l) (rows p)
    | None => false
    end in
  if foreign_keys conn && negb parent then throw ForeignKeyConstraintFailed
  else
    match new_rowid saved_id t with
    | None => throw DatabaseFull
    | Some n =>
        put_saved_listings (mkTable (rows t ++ [mkSavedListing n l s saved])%list n)
    end.

(** [DELETE FROM saved_listings WHERE listingId = ? AND sitterRoleId = ?] *)
Definition delete_from_saved_listings_where_pair (l s : Z) : Promise unit :=
  t <- table_saved_listings ;;
  put_saved_listings
    (mkTable (filter (fun sl => negb (same_pair l s sl)) (rows t))
             (sqlite_sequence t)).

(** [SELECT l.* FROM listings l INNER JOIN saved_listings sl
    ON l.id = sl.listingId WHERE sl.sitterRoleId = ? ORDER BY sl.savedAt DESC].
    [listings.id] is the rowid, so the engine scans [saved_listings] for
    the sitter's rows and looks the listing of each one up by its id;
    the pairs reach the sorter in the order of the bookmarks. *)
Definition joined (s : Z) (ls : list Listing) (sls : list SavedListing)
  : list (Listing * SavedListing) :=
  flat_map
    (fun sl =>
       map (fun l => (l, sl))
           (filter (fun l => id l =? listingId sl) ls))
    (filter (fun sl => sitterRoleId sl =? s) sls).

Definition select_saved_join (s : Z) : Promise (list Listing) :=
  l <- table_listings ;;
  sl <- table_saved_listings ;;
  ret (map fst
         (order_by_desc (fun p => savedAt (snd p))
            (joined s (rows l) (rows sl)))).

(* ------------------------------------------------------------------ *)
(** ** database/db.ts *)

Definition get_db : Promise (option SQLiteDatabase) :=
  fun w => (Fulfilled (db w), w).

Definition set_db (c : SQLiteDatabase) : Promise unit :=
  fun w => (Fulfilled tt, with_db (Some c) w).

(** [SQLite.openDatabaseAsync("sitconnect.db")]: a fresh connection.
    Neither [openDB] nor any other function of the source executes a
    pragma on it, so it keeps SQLite's default: foreign keys off. *)
Definition openDatabaseAsync : Promise SQLiteDatabase :=
  ret (mkConnection false).

(** The connection is opened on the first call and cached in [db]. *)
Definition openDB : Promise SQLiteDatabase :=
  cached <- get_db ;;
  match cached with
  | Some c => ret c
  | None => c <- openDatabaseAsync ;; set_db c ;;; ret c
  end.

Definition getDatabase : Promise SQLiteDatabase := openDB.

(** An element of the [sampleListings] array literal. *)
Record SampleListing : Type := mkSample {
  sample_creatorRoleId : Z;
  sample_sitterType : SitterType;
  sample_location : string;
  sample_startDate : string;
  sample_endDate : string;
  sample_description : string;
  sample_createdAt : string
}.

(** The array literal of [seedSampleData]; each element reads the clock
    for its own [createdAt]. *)
Definition sampleListings : Promise (list SampleListing) :=
  t1 <- Date_now_toISOString ;;
  t2 <- Date_now_toISOString ;;
  t3 <- Date_now_toISOString ;;
  t4 <- Date_now_toISOString ;;
  t5 <- Date_now_toISOString ;;
  ret [ mkSample 1 PET "Cape Town, Western Cape" "2025-01-10" "2025-01-20"
          "Looking for a reliable pet sitter for my two cats while I travel. They are friendly and low-maintenance."
          t1;
        mkSample 1 HOUSE "Stellenbosch, Western Cape" "2025-02-01" "2025-02-14"
          "Need someone to house sit our home in Stellenbosch. Must water plants and collect mail."
          t2;
        mkSample 1 BOTH "Johannesburg, Gauteng" "2025-03-05" "2025-03-15"
          "Looking for someone to watch our house and take care of our dog. Dog needs daily walks."
          t3;
        mkSample 1 PET "Durban, KwaZulu-Natal" "2025-01-25" "2025-02-05"
          "Need a pet sitter for my golden retriever. Very friendly and energetic, loves playing fetch."
          t4;
        mkSample 1 HOUSE "Pretoria, Gauteng" "2025-02-20" "2025-03-01"
          "House sitting needed for our apartment. Simple tasks include watering garden and maintaining security."
          t5 ].

Definition seedSampleData (database : SQLiteDatabase) : Promise unit :=
  samples <- sampleListings ;;
  for_of samples
    (fun listing =>
       insert_into_listings
         (sample_creatorRoleId listing) (sample_sitterType listing)
         (sample_location listing) (sample_startDate listing)
         (sample_endDate listing) (sample_description listing)
         (sample_createdAt listing) ;;;
       ret tt).

Definition initDatabase : Promise unit :=
  database <- openDB ;;
  create_table_listings ;;;
  create_table_saved_listings ;;;
  count <- count_listings ;;
  (* Only seed if database is empty *)
  if count =? 0 then seedSampleData database else ret tt.

(* ------------------------------------------------------------------ *)
(** ** services/listingService.ts *)

Definition createListing (creator : Z) (type : SitterType)
    (loc start_ end_ descr : string) : Promise Z :=
  db <- getDatabase ;;
  now <- Date_now_toISOString ;;
  lastInsertRowId <-
    insert_into_listings creator type loc start_ end_ descr now ;;
  ret lastInsertRowId.

Definition getAllListings : Promise (list Listing) :=
  db <- getDatabase ;;
  select_listings (fun _ => true).

Definition getListingsByCreator (creator : Z) : Promise (list Listing) :=
  db <- getDatabase ;;
  select_listings (fun l => creatorRoleId l =? creator).

Definition getListingById (i : Z) : Promise (option Listing) :=
  db <- getDatabase ;;
  listing <- first_listing_with_id i ;;
  ret listing.

(** [WHERE sitterType = ? OR sitterType = ?] with the requested type and
    [SitterType.BOTH]; the column is compared as text. *)
Definition type_matches (t : SitterType) (l : Listing) : bool :=
  String.eqb (SitterType_value (sitterType l)) (SitterType_value t)
  || String.eqb (SitterType_value (sitterType l)) (SitterType_value BOTH).

Definition filterListingsByType (type : TypeFilter) : Promise (list Listing) :=
  db <- getDatabase ;;
  match type with
  | All => getAllListings
  | OfType t => select_listings (type_matches t)
  end.

Definition updateListing (i : Z) (type : SitterType)
    (loc start_ end_ descr : string) : Promise unit :=
  db <- getDatabase ;;
  update_listings_where_id type loc start_ end_ descr i.

Definition deleteListing (i : Z) : Promise unit :=
  db <- getDatabase ;;
  delete_from_listings_where_id db i.

Definition saveListingForSitter (l s : Z) : Promise unit :=
  db <- getDatabase ;;
  (* First check if already saved (prevent duplicates) *)
  existing <- first_saved_with_pair l s ;;
  match existing with
  | Some _ => ret tt
  | None =>
      now <- Date_now_toISOString ;;
      insert_into_saved_listings db l s now
  end.

Definition unsaveListingForSitter (l s : Z) : Promise unit :=
  db <- getDatabase ;;
  delete_from_saved_listings_where_pair l s.

Definition isListingSaved (l s : Z) : Promise bool :=
  db <- getDatabase ;;
  result <- first_saved_with_pair l s ;;
  ret (match result with Some _ => true | None => false end).

Definition getSavedListingsForSitter (s : Z) : Promise (list Listing) :=
  db <- getDatabase ;;
  select_saved_join s.

(** The calls a screen can make, and a session as a sequence of them:
    each call has settled before the next one starts.  A rejected call
    is reported to the user and the session goes on. *)
Inductive Call : Type :=
| Initialize
| Create (creator : Z) (type : SitterType) (loc start_ end_ descr : string)
| GetAll
| GetByCreator (creator : Z)
| GetById (i : Z)
| FilterByType (type : TypeFilter)
| Update (i : Z) (type : SitterType) (loc start_ end_ descr : string)
| Delete (i : Z)
| Save (l s : Z)
| Unsave (l s : Z)
| IsSaved (l s : Z)
| GetSavedForSitter (s : Z).

Definition perform (c : Call) (w : Runtime) : Runtime :=
  match c with
  | Initialize => snd (initDatabase w)
  | Create c t l s e d => snd (createListing c t l s e d w)
  | GetAll => snd (getAllListings w)
  | GetByCreator c => snd (getListingsByCreator c w)
  | GetById i => snd (getListingById i w)
  | FilterByType t => snd (filterListingsByType t w)
  | Update i t l s e d => snd (updateListing i t l s e d w)
  | Delete i => snd (deleteListing i w)
  | Save l s => snd (saveListingForSitter l s w)
  | Unsave l s => snd (unsaveListingForSitter l s w)
  | IsSaved l s => snd (isListingSaved l s w)
  | GetSavedForSitter s => snd (getSavedListingsForSitter s w)
  end.

Definition session (cs : list Call) (w : Runtime) : Runtime :=
  fold_left (fun w c => perform c w) cs w.

(** Rows of a table, [[]] when it was never created. *)
Definition listing_rows (w : Runtime) : list Listing :=
  match listings (file w) with Some t => rows t | None => [] end.

Definition saved_rows (w : Runtime) : list SavedListing :=
  match saved_listings (file w) with Some t => rows t | None => [] end.

(** A clock for the worked examples. *)
Definition example_clock (n : nat) : string :=
  match n with
  | 0%nat => "2025-01-01T10:00:00.000Z"
  | 1%nat => "2025-01-01T10:00:00.001Z"
  | 2%nat => "2025-01-01T10:00:00.002Z"
  | 3%nat => "2025-01-01T10:00:00.003Z"
  | 4%nat => "2025-01-01T10:00:00.004Z"
  | 5%nat => "2025-01-02T08:30:00.000Z"
  | 6%nat => "2025-01-03T09:15:00.000Z"
  | _ => "2025-01-04T12:00:00.000Z"
  end.

(** The connection a call works with: the cached one, or the one [openDB]
    is about to open. *)
Definition connection (w : Runtime) : SQLiteDatabase :=
  match db w with
  | Some c => c
  | None => mkConnection false
  end.

(** The runtime once [openDB] has run. *)
Definition opened (w : Runtime) : Runtime := with_db (Some (connection w)) w.

(** The sitter types a filter is meant to let through, as the listing
    screens describe it: a listing for both services answers a search for
    either one. *)
Definition accepted_types (type : TypeFilter) : list SitterType :=
  match type with
  | OfType PET => [PET; BOTH]
  | OfType HOUSE => [HOUSE; BOTH]
  | OfType BOTH => [BOTH]
  | All => [PET; HOUSE; BOTH]
  end.

Definition SitterType_eqb (a b : SitterType) : bool :=
  match a, b with
  | PET, PET | HOUSE, HOUSE | BOTH, BOTH => true
  | _, _ => false
  end.

Definition sitterType_among (ts : list SitterType) (l : Listing) : bool :=
  existsb (SitterType_eqb (sitterType l)) ts.

(** A store with the five samples, one listing of another requester and
    three bookmarks. *)
Definition example_runtime : Runtime :=
  Eval vm_compute in
  session
    [ Initialize;
      Create 2 HOUSE "Knysna, Western Cape" "2025-04-01" "2025-04-09"
        "Keep an eye on the house";
      Save 1 7; Save 3 7; Save 2 8 ]
    (first_launch example_clock).

(** The store right after the first launch. *)
Definition seeded_runtime : Runtime :=
  Eval vm_compute in snd (initDatabase (first_launch example_clock)).

Definition example_listings : Table Listing :=
  match listings (file example_runtime) with
  | Some t => t
  | None => mkTable [] 0
  end.

Definition example_saved_listings : Table SavedListing :=
  match saved_listings (file example_runtime) with
  | Some t => t
  | None => mkTable [] 0
  end.

(** The [ON] and [WHERE] conditions of the bookmark join, on a pair of a
    listing and a bookmark. *)
Definition joins_for (s : Z) (p : Listing * SavedListing) : bool :=
  (listingId (snd p) =? id (fst p)) && (sitterRoleId (snd p) =? s).

(** How many bookmarks the store holds for a pair. *)
Definition bookmarks (l s : Z) (w : Runtime) : nat :=
  List.length (filter (same_pair l s) (saved_rows w)).

(** What an orphan is: a bookmark whose listing is gone. *)
Definition orphans (w : Runtime) : list SavedListing :=
  filter (fun sl => negb (existsb (fun l => id l =? listingId sl)
                                  (listing_rows w)))
         (saved_rows w).

(** The database file a fulfilled [deleteListing] leaves, given the
    connection and the two tables before it. *)
Definition after_delete (i : Z) (conn : SQLiteDatabase) (t : Table Listing)
    (saved : option (Table SavedListing)) : Database :=
  mkDatabase
    (Some (mkTable (filter (fun l => negb (id l =? i)) (rows t))
                   (sqlite_sequence t)))
    (match saved with
     | Some s =>
         if foreign_keys conn && existsb (fun l => id l =? i) (rows t)
         then Some (mkTable
                      (filter (fun sl => negb (listingId sl =? i)) (rows s))
                      (sqlite_sequence s))
         else Some s
     | None => None
     end).

(** A property of the runtime that a call cannot break, however it
    settles. *)
Definition stable {A} (P : Runtime -> Prop) (m : Promise A) : Prop :=
  forall w, P w -> P (snd (m w)).

(** Properties that do not look at the listings table, the clock or at
    whether the connection handle is cached yet. *)
Record frame (P : Runtime -> Prop) : Prop := mkFrame {
  frame_opened : forall w, P w -> P (opened w);
  frame_clock :
    forall w, P w -> P (mkRuntime (db w) (file w) (clock w) (S (reads w)));
  frame_listings :
    forall w t, P w -> P (with_file (with_listings t (file w)) w);
  frame_create_saved :
    forall w, saved_listings (file w) = None -> P w ->
              P (with_file (with_saved_listings (mkTable [] 0) (file w)) w)
}.

(** Properties that do not look at the bookmarks either. *)
Definition ignores_saved (P : Runtime -> Prop) : Prop :=
  forall w t, P w -> P (with_file (with_saved_listings t (file w)) w).

(** The database file once both [CREATE TABLE IF NOT EXISTS] have run. *)
Definition with_schema (f : Database) : Database :=
  mkDatabase
    (Some (match listings f with Some t => t | None => mkTable [] 0 end))
    (Some (match saved_listings f with Some t => t | None => mkTable [] 0 end)).

(** The row that the [INSERT] of the seeding loop writes for a sample,
    once the table has chosen its rowid. *)
Definition stored (n : Z) (s : SampleListing) : Listing :=
  mkListing n (sample_creatorRoleId s) (sample_sitterType s)
    (sample_location s) (sample_startDate s) (sample_endDate s)
    (sample_description s) (sample_createdAt s).

Definition stored_all (ids : list Z) (samples : list SampleListing)
  : list Listing :=
  map (fun p => stored (fst p) (snd p)) (combine ids samples).

(** The rowids of the listings table in row order, and the table's
    [sqlite_sequence] (0 while the table does not exist). *)
Definition listing_ids (w : Runtime) : list Z := map id (listing_rows w).

Definition listings_sequence (w : Runtime) : Z :=
  match listings (file w) with
  | Some t => sqlite_sequence t
  | None => 0
  end.

(** The primary key as the engine keeps it: rowids ascend in row order,
    are positive and none exceeds [sqlite_sequence]. *)
Definition rowids_sound (w : Runtime) : Prop :=
  StronglySorted Z.lt (listing_ids w) /\
  Forall (fun i => 0 < i <= listings_sequence w) (listing_ids w).

(** The runtime after one more reading of the clock. *)
Definition ticked (w : Runtime) : Runtime :=
  mkRuntime (db w) (file w) (clock w) (S (reads w)).

(** Properties kept by each way a statement of the service writes the
    listings table (creating it, appending a row under a new rowid,
    rewriting rows without touching their ids, dropping rows) and
    indifferent to the bookmarks, the clock and the connection cache. *)
Record write_closed (P : Runtime -> Prop) : Prop := mkWriteClosed {
  wc_opened : forall w, P w -> P (opened w);
  wc_clock : forall w, P w -> P (ticked w);
  wc_saved :
    forall w t, P w -> P (with_file (with_saved_listings t (file w)) w);
  wc_create :
    forall w, listings (file w) = None -> P w ->
              P (with_file (with_listings (mkTable [] 0) (file w)) w);
  wc_insert :
    forall w t n l,
      listings (file w) = Some t -> new_rowid id t = Some n -> id l = n ->
      P w ->
      P (with_file (with_listings (mkTable (rows t ++ [l]) n) (file w)) w);
  wc_update :
    forall w t f,
      listings (file w) = Some t -> (forall l, id (f l) = id l) -> P w ->
      P (with_file
           (with_listings (mkTable (map f (rows t)) (sqlite_sequence t))
              (file w)) w);
  wc_delete :
    forall w t p,
      listings (file w) = Some t -> P w ->
      P (with_file
           (with_listings (mkTable (filter p (rows t)) (sqlite_sequence t))
              (file w)) w)
}.

(* ------------------------------------------------------------------ *)
(** ** screens/MyListingsScreen.tsx

    The data side of the screen: its two state variables, the alerts it
    raises, and the state its handlers leave once their promises have
    settled. *)

Definition MOCK_REQUESTER_ROLE_ID : Z := 1.

Record ScreenState : Type := mkScreen {
  shown : list Listing;      (* const [listings, setListings] *)
  loading : bool             (* const [loading, setLoading] *)
}.

(** [Alert.alert(title, message)] *)
Definition Alert : Type := (string * string)%type.

(** [loadListings]: the list is replaced when the query is fulfilled and
    kept when it is rejected; [loading] is reset either way. *)
Definition loadListings (scr : ScreenState) (w : Runtime)
  : ScreenState * list Alert * Runtime :=
  let scr := mkScreen (shown scr) true in
  match getListingsByCreator MOCK_REQUESTER_ROLE_ID w with
  | (Fulfilled data, w') => (mkScreen data false, [], w')
  | (Rejected _, w') =>
      (mkScreen (shown scr) false,
       [("Error", "Failed to load listings")%string], w')
  end.

(** The two buttons of the confirmation dialog of [handleDelete]. *)
Inductive Confirmation : Type := CancelButton | DeleteButton.

(** [handleDelete listingId] followed by the user's answer.  The reload
    is started before the success alert is raised and raises its own
    alert, if any, after it. *)
Definition handleDelete (listingId : Z) (answer : Confirmation)
    (scr : ScreenState) (w : Runtime)
  : ScreenState * list Alert * Runtime :=
  match answer with
  | CancelButton => (scr, [], w)
  | DeleteButton =>
      match deleteListing listingId w with
      | (Fulfilled _, w') =>
          let '(scr', alerts, w'') := loadListings scr w' in
          (scr', ("Success", "Listing deleted")%string :: alerts, w'')
      | (Rejected _, w') =>
          (scr, [("Error", "Failed to delete listing")%string], w')
      end
  end.

(** What the screen renders below its header. *)
Inductive View : Type :=
| LoadingText
| NoListingsYet
| FlatList (data : list Listing).

Definition render (scr : ScreenState) : View :=
  if loading scr then LoadingText
  else if (List.length (shown scr) =? 0)%nat then NoListingsYet
  else FlatList (shown scr).

(* ------------------------------------------------------------------ *)
(** ** Calls that are not awaited

    An async function gives control back at each [await].
    [saveListingForSitter] is cut here where its SELECT has settled: the
    first half ends with the connection and the row found, the second
    half is what the function does when it resumes. *)

Definition saveListingForSitter_selected (l s : Z)
  : Promise (SQLiteDatabase * option SavedListing) :=
  db <- getDatabase ;;
  existing <- first_saved_with_pair l s ;;
  ret (db, existing).

Definition saveListingForSitter_resumed (l s : Z)
    (found : SQLiteDatabase * option SavedListing) : Promise unit :=
  match snd found with
  | Some _ => ret tt
  | None =>
      now <- Date_now_toISOString ;;
      insert_into_saved_listings (fst found) l s now
  end.


(* ------------------------------------------------------------------ *)
(** ** Ordering of text keys *)

Lemma ascii_compare_lt_trans (a b c : ascii) :
  Ascii.compare a b = Lt -> Ascii.compare b c = Lt -> Ascii.compare a c = Lt.
Proof.
  unfold Ascii.compare. rewrite !N.compare_lt_iff. apply N.lt_trans.
Qed.

Lemma string_leb_trans (a b c : string) :
  String.leb a b = true -> String.leb b c = true -> String.leb a c = true.
Proof.
  unfold String.leb. revert b c.
  induction a as [|x a IH]; intros [|y b] [|z c]; simpl; try congruence.
  destruct (Ascii.compare x y) eqn:Exy; try congruence;
    destruct (Ascii.compare y z) eqn:Eyz; try congruence.
  - apply Ascii.compare_eq_iff in Exy, Eyz. subst.
    assert (Ascii.compare z z = Eq) as ->.
    { unfold Ascii.compare. apply N.compare_refl. }
    apply IH.
  - apply Ascii.compare_eq_iff in Exy. subst. now rewrite Eyz.
  - apply Ascii.compare_eq_iff in Eyz. subst. now rewrite Exy.
  - now rewrite (ascii_compare_lt_trans _ _ _ Exy Eyz).
Qed.

Section OrderByFacts.
Context {R : Type} (key : R -> string).

Lemma desc_total (a b : R) : desc key a b \/ desc key b a.
Proof. unfold desc. destruct (String.leb_total (key a) (key b)); auto. Qed.

Lemma desc_trans (a b c : R) : desc key a b -> desc key b c -> desc key a c.
Proof. unfold desc. intros. eapply string_leb_trans; eauto. Qed.

Lemma place_perm (x : R) (l : list R) : Permutation (place key x l) (x :: l).
Proof.
  induction l as [|y l IH]; simpl; auto.
  destruct (String.leb (key y) (key x)); auto.
  rewrite IH. apply perm_swap.
Qed.

Lemma order_by_desc_perm (l : list R) : Permutation (order_by_desc key l) l.
Proof.
  induction l as [|x l IH]; simpl; auto.
  rewrite place_perm. now constructor.
Qed.

Lemma place_sorted (x : R) (l : list R) :
  StronglySorted (desc key) l -> StronglySorted (desc key) (place key x l).
Proof.
  induction 1 as [|y l Hs IH Hy]; simpl.
  - repeat constructor.
  - destruct (String.leb (key y) (key x)) eqn:E.
    + constructor; [now constructor|].
      constructor; [exact E|].
      eapply Forall_impl; [|exact Hy].
      intros z Hz. eapply desc_trans; eauto.
    + constructor; [exact IH|].
      rewrite (Forall_forall (desc key y)). intros z Hz.
      apply (Permutation_in _ (place_perm x l)) in Hz.
      destruct Hz as [<-|Hz].
      * destruct (desc_total y x) as [H|H]; [exact H|].
        unfold desc in H. congruence.
      * rewrite Forall_forall in Hy. auto.
Qed.

Lemma order_by_desc_sorted (l : list R) :
  StronglySorted (desc key) (order_by_desc key l).
Proof.
  induction l as [|x l IH]; simpl; [constructor|].
  now apply place_sorted.
Qed.

Lemma order_by_desc_In (l : list R) (x : R) :
  In x (order_by_desc key l) <-> In x l.
Proof.
  split; apply Permutation_in;
    [|symmetry]; apply order_by_desc_perm.
Qed.
End OrderByFacts.

(* ------------------------------------------------------------------ *)
(** ** One step of each call *)

Lemma openDB_step (w : Runtime) :
  openDB w = (Fulfilled (connection w), opened w).
Proof.
  unfold openDB, opened, connection, bind, get_db, set_db, openDatabaseAsync,
    ret, with_db.
  destruct w as [[c|] f clk n]; reflexivity.
Qed.

Lemma getDatabase_step (w : Runtime) :
  getDatabase w = (Fulfilled (connection w), opened w).
Proof. apply openDB_step. Qed.

Lemma bind_getDatabase {A} (k : SQLiteDatabase -> Promise A) (w : Runtime) :
  bind getDatabase k w = k (connection w) (opened w).
Proof. unfold bind. now rewrite getDatabase_step. Qed.

Lemma select_listings_step (cond : Listing -> bool) (w : Runtime)
    (t : Table Listing) :
  listings (file w) = Some t ->
  select_listings cond w
  = (Fulfilled (order_by_desc createdAt (filter cond (rows t))), w).
Proof.
  intros H. unfold select_listings, table_listings, bind, get_file.
  now rewrite H.
Qed.

Lemma SitterType_eqb_eq (a b : SitterType) : SitterType_eqb a b = true <-> a = b.
Proof. destruct a, b; simpl; split; congruence. Qed.

Lemma sitterType_among_In (ts : list SitterType) (l : Listing) :
  sitterType_among ts l = true <-> In (sitterType l) ts.
Proof.
  unfold sitterType_among. rewrite existsb_exists. split.
  - intros (t & Hin & E). apply SitterType_eqb_eq in E. now subst.
  - intros Hin. exists (sitterType l). split; [exact Hin|].
    now apply SitterType_eqb_eq.
Qed.

(** On the stored text, the [WHERE] clause of [filterListingsByType] lets
    through what [accepted_types] lists. *)
Lemma type_matches_accepted (t : SitterType) (l : Listing) :
  type_matches t l = sitterType_among (accepted_types (OfType t)) l.
Proof.
  unfold type_matches, sitterType_among.
  destruct t, (sitterType l); reflexivity.
Qed.

(* ------------------------------------------------------------------ *)
(** ** Reading listings *)

Lemma getAllListings_step (w : Runtime) (t : Table Listing) :
  listings (file w) = Some t ->
  getAllListings w
  = (Fulfilled (order_by_desc createdAt (filter (fun _ => true) (rows t))),
     opened w).
Proof.
  intros H. unfold getAllListings. rewrite bind_getDatabase.
  exact (select_listings_step _ (opened w) t H).
Qed.

(** C8: with the listings table in place, [getListingsByCreator] fulfils
    with exactly the rows whose [creatorRoleId] is the argument, each as
    often as the table holds it, ordered by [createdAt] descending; the
    result is empty when no row matches. *)
Theorem getListingsByCreator_exact
    (w : Runtime) (t : Table Listing) (creator : Z) :
  listings (file w) = Some t ->
  exists result,
    getListingsByCreator creator w = (Fulfilled result, opened w) /\
    (forall l, In l result <-> In l (rows t) /\ creatorRoleId l = creator) /\
    Permutation result (filter (fun l => creatorRoleId l =? creator) (rows t)) /\
    StronglySorted (desc createdAt) result /\
    ((forall l, In l (rows t) -> creatorRoleId l <> creator) -> result = []).
Proof.
  intros H. eexists. split.
  - unfold getListingsByCreator. rewrite bind_getDatabase.
    exact (select_listings_step _ (opened w) t H).
  - assert (forall l, In l (order_by_desc createdAt
                (filter (fun l => creatorRoleId l =? creator) (rows t)))
              <-> In l (rows t) /\ creatorRoleId l = creator) as Hin.
    { intros l. rewrite order_by_desc_In, filter_In, Z.eqb_eq. tauto. }
    split; [exact Hin|].
    split; [apply order_by_desc_perm|].
    split; [apply order_by_desc_sorted|].
    intros Hnone.
    destruct (order_by_desc _ _) as [|l r] eqn:E; [reflexivity|].
    destruct (proj1 (Hin l) (or_introl eq_refl)) as [Hl Hc].
      now destruct (Hnone l Hl).
Qed.

Lemma getListingsByCreator_exact_witness :
  exists result,
    getListingsByCreator 1 example_runtime
    = (Fulfilled result, opened example_runtime) /\
    (forall l, In l result <->
               In l (rows example_listings) /\ creatorRoleId l = 1) /\
    Permutation result
      (filter (fun l => creatorRoleId l =? 1) (rows example_listings)) /\
    StronglySorted (desc createdAt) result /\
    ((forall l, In l (rows example_listings) -> creatorRoleId l <> 1) ->
     result = []).
Proof.
  apply (getListingsByCreator_exact example_runtime example_listings 1).
  reflexivity.
Defined.

(** C2: with the listings table in place, [filterListingsByType] fulfils
    with exactly the rows whose [sitterType] is PET or BOTH for PET, HOUSE
    or BOTH for HOUSE, and BOTH alone for BOTH, ordered by [createdAt]
    descending; for "all" it settles exactly as [getAllListings] does,
    which returns every row in that order. *)
Theorem filterListingsByType_exact
    (w : Runtime) (t : Table Listing) (type : TypeFilter) :
  listings (file w) = Some t ->
  exists result,
    filterListingsByType type w = (Fulfilled result, opened w) /\
    (forall l, In l result <->
               In l (rows t) /\ In (sitterType l) (accepted_types type)) /\
    Permutation result
      (filter (sitterType_among (accepted_types type)) (rows t)) /\
    StronglySorted (desc createdAt) result /\
    (type = All ->
     getAllListings w = (Fulfilled result, opened w) /\
     Permutation result (rows t)).
Proof.
  intros H.
  assert (forall cond,
             (forall l, cond l = sitterType_among (accepted_types type) l) ->
             let result := order_by_desc createdAt (filter cond (rows t)) in
             (forall l, In l result <->
                  In l (rows t) /\ In (sitterType l) (accepted_types type)) /\
             Permutation result
               (filter (sitterType_among (accepted_types type)) (rows t)) /\
             StronglySorted (desc createdAt) result) as Hcond.
  { intros cond Hc result. subst result.
    rewrite (filter_ext _ _ Hc).
    split; [|split; [apply order_by_desc_perm|apply order_by_desc_sorted]].
    intros l. rewrite order_by_desc_In, filter_In, sitterType_among_In.
    tauto. }
  unfold filterListingsByType. rewrite bind_getDatabase.
  destruct type as [ty|].
  - eexists. split; [exact (select_listings_step _ (opened w) t H)|].
    destruct (Hcond (type_matches ty) (type_matches_accepted ty))
      as (Hin & Hperm & Hsort).
    split; [exact Hin|]. split; [exact Hperm|]. split; [exact Hsort|].
    discriminate.
  - assert (Hall : forall l : Listing,
               (fun _ => true) l = sitterType_among (accepted_types All) l).
    { intros l. unfold sitterType_among. simpl. now destruct (sitterType l). }
    destruct (Hcond _ Hall) as (Hin & Hperm & Hsort).
    eexists. split; [exact (getAllListings_step (opened w) t H)|].
    split; [exact Hin|]. split; [exact Hperm|]. split; [exact Hsort|].
    intros _. split; [exact (getAllListings_step w t H)|].
    rewrite order_by_desc_perm.
    rewrite forallb_filter_id; [reflexivity|].
    now apply forallb_forall.
Qed.

Lemma filterListingsByType_exact_witness :
  exists result,
    filterListingsByType (OfType PET) example_runtime
    = (Fulfilled result, opened example_runtime) /\
    (forall l, In l result <->
               In l (rows example_listings) /\
               In (sitterType l) (accepted_types (OfType PET))) /\
    Permutation result
      (filter (sitterType_among (accepted_types (OfType PET)))
         (rows example_listings)) /\
    StronglySorted (desc createdAt) result /\
    (OfType PET = All ->
     getAllListings example_runtime = (Fulfilled result, opened example_runtime) /\
     Permutation result (rows example_listings)).
Proof.
  apply (filterListingsByType_exact example_runtime example_listings
           (OfType PET)).
  reflexivity.
Defined.

(** What the two filters return on the example store, newest first. *)
Example filter_pet_ids :
  match fst (filterListingsByType (OfType PET) example_runtime) with
  | Fulfilled r => map id r
  | Rejected _ => []
  end = [4; 3; 1].
Proof. reflexivity. Qed.

Example filter_both_ids :
  match fst (filterListingsByType (OfType BOTH) example_runtime) with
  | Fulfilled r => map id r
  | Rejected _ => []
  end = [3].
Proof. reflexivity. Qed.

(* ------------------------------------------------------------------ *)
(** ** Updating a listing *)

Lemma update_listings_step (w : Runtime) (t : Table Listing) (i : Z)
    (type : SitterType) (loc start_ end_ descr : string) :
  listings (file w) = Some t ->
  updateListing i type loc start_ end_ descr w
  = (Fulfilled tt,
     with_file
       (with_listings
          (mkTable
             (map (fun l => if id l =? i
                            then set_columns type loc start_ end_ descr l
                            else l) (rows t))
             (sqlite_sequence t))
          (file w))
       (opened w)).
Proof.
  intros H. unfold updateListing. rewrite bind_getDatabase.
  unfold update_listings_where_id, table_listings, put_listings, bind,
    get_file, put_file, ret.
  simpl. now rewrite H.
Qed.

(** C6: [updateListing] rewrites in place: the table keeps its rows in
    their positions and its rowid counter, the bookmarks are untouched, a
    row whose id is the given one takes the five given fields and keeps
    its [id], [creatorRoleId] and [createdAt], and a row with another id
    is left as it was. *)
Theorem updateListing_frame (w : Runtime) (t : Table Listing) (i : Z)
    (type : SitterType) (loc start_ end_ descr : string) :
  listings (file w) = Some t ->
  exists w' t',
    updateListing i type loc start_ end_ descr w = (Fulfilled tt, w') /\
    listings (file w') = Some t' /\
    saved_listings (file w') = saved_listings (file w) /\
    sqlite_sequence t' = sqlite_sequence t /\
    List.length (rows t') = List.length (rows t) /\
    forall n l, nth_error (rows t) n = Some l ->
      exists l',
        nth_error (rows t') n = Some l' /\
        id l' = id l /\
        creatorRoleId l' = creatorRoleId l /\
        createdAt l' = createdAt l /\
        (id l = i ->
         sitterType l' = type /\ location l' = loc /\ startDate l' = start_ /\
         endDate l' = end_ /\ description l' = descr) /\
        (id l <> i -> l' = l).
Proof.
  intros H. eexists. eexists.
  split; [exact (update_listings_step w t i type loc start_ end_ descr H)|].
  split; [reflexivity|]. split; [reflexivity|]. split; [reflexivity|].
  split; [apply length_map|].
  intros n l Hn. simpl.
  rewrite nth_error_map, Hn. simpl.
  destruct (id l =? i) eqn:E.
  - apply Z.eqb_eq in E. eexists. split; [reflexivity|]. simpl.
    repeat split; auto. congruence.
  - apply Z.eqb_neq in E. exists l. repeat split; auto; congruence.
Qed.

Lemma updateListing_frame_witness :
  exists w' t',
    updateListing 2 BOTH "Paarl" "2025-05-01" "2025-05-02" "Cats" example_runtime
    = (Fulfilled tt, w') /\
    listings (file w') = Some t' /\
    saved_listings (file w') = saved_listings (file example_runtime) /\
    sqlite_sequence t' = sqlite_sequence example_listings /\
    List.length (rows t') = List.length (rows example_listings) /\
    forall n l, nth_error (rows example_listings) n = Some l ->
      exists l',
        nth_error (rows t') n = Some l' /\
        id l' = id l /\
        creatorRoleId l' = creatorRoleId l /\
        createdAt l' = createdAt l /\
        (id l = 2 ->
         sitterType l' = BOTH /\ location l' = "Paarl"%string /\
         startDate l' = "2025-05-01"%string /\
         endDate l' = "2025-05-02"%string /\ description l' = "Cats"%string) /\
        (id l <> 2 -> l' = l).
Proof.
  apply (updateListing_frame example_runtime example_listings 2 BOTH
           "Paarl" "2025-05-01" "2025-05-02" "Cats").
  reflexivity.
Defined.

Lemma map_unchanged {A} (f : A -> A) (l : list A) :
  (forall x, In x l -> f x = x) -> map f l = l.
Proof.
  induction l as [|x l IH]; simpl; intros H; [reflexivity|].
  rewrite H by auto. now rewrite IH by auto.
Qed.

Lemma absent_when_checked (rs : list Listing) (i : Z) :
  forallb (fun l => negb (id l =? i)) rs = true ->
  forall l, In l rs -> id l <> i.
Proof.
  rewrite forallb_forall. intros H l Hl E.
  apply H in Hl. apply Z.eqb_eq in E. rewrite E in Hl. discriminate.
Qed.

(** C7: when no row of the listings table has the given id,
    [updateListing] fulfils and changes nothing in the database file; the
    clock is not read, and only the connection handle is cached if it was
    not yet. *)
Theorem updateListing_absent_id (w : Runtime) (t : Table Listing) (i : Z)
    (type : SitterType) (loc start_ end_ descr : string) :
  listings (file w) = Some t ->
  (forall l, In l (rows t) -> id l <> i) ->
  exists w',
    updateListing i type loc start_ end_ descr w = (Fulfilled tt, w') /\
    file w' = file w /\
    clock w' = clock w /\
    reads w' = reads w /\
    db w' = Some (connection w).
Proof.
  intros H Habsent. eexists.
  split; [exact (update_listings_step w t i type loc start_ end_ descr H)|].
  split; [|repeat split]. simpl.
  rewrite map_unchanged.
  - destruct w as [c [lt st] clk n]; simpl in *. subst lt.
    now destruct t.
  - intros l Hl. apply Habsent in Hl.
    apply Z.eqb_neq in Hl. now rewrite Hl.
Qed.

Lemma updateListing_absent_id_witness :
  exists w',
    updateListing 99 PET "Paarl" "2025-05-01" "2025-05-02" "Cats" example_runtime
    = (Fulfilled tt, w') /\
    file w' = file example_runtime /\
    clock w' = clock example_runtime /\
    reads w' = reads example_runtime /\
    db w' = Some (connection example_runtime).
Proof.
  apply (updateListing_absent_id example_runtime example_listings 99 PET
           "Paarl" "2025-05-01" "2025-05-02" "Cats").
  - reflexivity.
  - apply absent_when_checked. vm_compute. reflexivity.
Defined.

(* ------------------------------------------------------------------ *)
(** ** Creating a listing *)

Lemma largest_rowid_bound {R} (rowid : R -> Z) (rs : list R) (r : R) :
  In r rs -> rowid r <= largest_rowid rowid rs.
Proof.
  induction rs as [|x rs IH]; simpl; [tauto|].
  intros [<-|H]; [lia|]. specialize (IH H). lia.
Qed.

Lemma new_rowid_fresh {R} (rowid : R -> Z) (t : Table R) (n : Z) :
  new_rowid rowid t = Some n ->
  sqlite_sequence t < n /\ forall r, In r (rows t) -> rowid r < n.
Proof.
  unfold new_rowid.
  destruct (_ <? _); [|discriminate]. intros [= <-].
  split; [lia|]. intros r Hr.
  pose proof (largest_rowid_bound rowid _ _ Hr). lia.
Qed.

Lemma new_rowid_room {R} (rowid : R -> Z) (t : Table R) :
  Z.max (sqlite_sequence t) (largest_rowid rowid (rows t)) < max_rowid ->
  new_rowid rowid t
  = Some (Z.max (sqlite_sequence t) (largest_rowid rowid (rows t)) + 1).
Proof.
  intros H. unfold new_rowid. apply Z.ltb_lt in H. now rewrite H.
Qed.

Lemma find_appended {A} (f : A -> bool) (l : list A) (x : A) :
  (forall y, In y l -> f y = false) -> f x = true ->
  find f (l ++ [x]) = Some x.
Proof.
  induction l as [|y l IH]; simpl; intros Hl Hx.
  - now rewrite Hx.
  - rewrite (Hl y) by auto. apply IH; auto.
Qed.

Lemma insert_into_listings_step (w : Runtime) (t : Table Listing) (n : Z)
    (creator : Z) (type : SitterType) (loc start_ end_ descr created : string) :
  listings (file w) = Some t ->
  new_rowid id t = Some n ->
  insert_into_listings creator type loc start_ end_ descr created w
  = (Fulfilled n,
     with_file
       (with_listings
          (mkTable
             (rows t ++ [mkListing n creator type loc start_ end_ descr created])
             n)
          (file w))
       w).
Proof.
  intros H Hn.
  unfold insert_into_listings, table_listings, put_listings, bind, get_file,
    put_file, ret.
  simpl. rewrite H, Hn. reflexivity.
Qed.

Lemma exact_integer_is_rowid (n : Z) : n < max_exact_integer -> n < max_rowid.
Proof. unfold max_exact_integer, max_rowid. lia. Qed.

(** C5: with the listings table in place and its rowids still within
    the integers a JS number holds exactly (the next rowid is at most
    2^53), [createListing] fulfils with an id no existing row has,
    appends one row made of that id, the six inputs and the clock
    reading as [createdAt], leaves the bookmarks alone, and
    [getListingById] with the returned id right afterwards fulfils with
    that very row. *)
Theorem createListing_then_getListingById
    (w : Runtime) (t : Table Listing)
    (creator : Z) (type : SitterType) (loc start_ end_ descr : string) :
  listings (file w) = Some t ->
  Z.max (sqlite_sequence t) (largest_rowid id (rows t)) < max_exact_integer ->
  exists i w',
    createListing creator type loc start_ end_ descr w = (Fulfilled i, w') /\
    i <= max_exact_integer /\
    (forall l, In l (rows t) -> id l <> i) /\
    listings (file w')
    = Some (mkTable
              (rows t ++ [mkListing i creator type loc start_ end_ descr
                            (clock w (reads w))])
              i) /\
    saved_listings (file w') = saved_listings (file w) /\
    getListingById i w'
    = (Fulfilled
         (Some (mkListing i creator type loc start_ end_ descr
                  (clock w (reads w)))),
       w').
Proof.
  intros H Hexact.
  pose proof (exact_integer_is_rowid _ Hexact) as Hroom.
  pose proof (new_rowid_room id t Hroom) as Hn.
  destruct (new_rowid_fresh id t _ Hn) as [_ Hfresh].
  set (i := Z.max (sqlite_sequence t) (largest_rowid id (rows t)) + 1) in *.
  exists i. eexists. split.
  - unfold createListing. rewrite bind_getDatabase.
    unfold bind at 1. unfold Date_now_toISOString.
    unfold bind at 1. erewrite insert_into_listings_step; [|exact H|exact Hn].
    reflexivity.
  - split. { subst i. lia. }
    split. { intros l Hl E. apply Hfresh in Hl. lia. }
    split; [reflexivity|]. split; [reflexivity|].
    unfold getListingById. rewrite bind_getDatabase.
    unfold first_listing_with_id, table_listings, bind, get_file, ret. simpl.
    rewrite find_appended; [reflexivity| |simpl; apply Z.eqb_refl].
    intros l Hl. apply Hfresh in Hl. apply Z.eqb_neq. lia.
Qed.

Lemma createListing_then_getListingById_witness :
  exists i w',
    createListing 2 PET "Paarl" "2025-05-01" "2025-05-02" "Cats" example_runtime
    = (Fulfilled i, w') /\
    i <= max_exact_integer /\
    (forall l, In l (rows example_listings) -> id l <> i) /\
    listings (file w')
    = Some (mkTable
              (rows example_listings ++
               [mkListing i 2 PET "Paarl" "2025-05-01" "2025-05-02" "Cats"
                  (clock example_runtime (reads example_runtime))])
              i) /\
    saved_listings (file w') = saved_listings (file example_runtime) /\
    getListingById i w'
    = (Fulfilled
         (Some (mkListing i 2 PET "Paarl" "2025-05-01" "2025-05-02" "Cats"
                  (clock example_runtime (reads example_runtime)))),
       w').
Proof.
  apply (createListing_then_getListingById example_runtime example_listings
           2 PET "Paarl" "2025-05-01" "2025-05-02" "Cats").
  - reflexivity.
  - vm_compute. reflexivity.
Defined.

Example create_on_example_store :
  fst (createListing 2 PET "Paarl" "2025-05-01" "2025-05-02" "Cats"
         example_runtime) = Fulfilled 7.
Proof. reflexivity. Qed.

(* ------------------------------------------------------------------ *)
(** ** Reading bookmarks *)

Lemma Permutation_filter {A} (p : A -> bool) (l l' : list A) :
  Permutation l l' -> Permutation (filter p l) (filter p l').
Proof.
  induction 1 as [|x l l' H IH|x y l|l l' l'' H1 IH1 H2 IH2]; simpl.
  - constructor.
  - destruct (p x); [now constructor|exact IH].
  - destruct (p x), (p y); try reflexivity. apply perm_swap.
  - now transitivity (filter p l').
Qed.

Lemma list_prod_cons_r {A B} (l : list A) (y : B) (l' : list B) :
  Permutation (list_prod l (y :: l'))
              (map (fun x => (x, y)) l ++ list_prod l l').
Proof.
  induction l as [|x l IH]; simpl; [constructor|].
  constructor. rewrite IH. apply Permutation_app_swap_app.
Qed.

Lemma filter_none {A} (p : A -> bool) (l : list A) :
  (forall x, p x = false) -> filter p l = [].
Proof.
  intros H. induction l as [|x l IH]; simpl; [reflexivity|].
  now rewrite H.
Qed.

(** The pairs the join produces are those of the product of the two
    tables that satisfy its conditions, each as often. *)
Lemma joined_product (s : Z) (ls : list Listing) (sls : list SavedListing) :
  Permutation (joined s ls sls) (filter (joins_for s) (list_prod ls sls)).
Proof.
  unfold joined. induction sls as [|sl sls IH]; simpl.
  - induction ls as [|l ls IHl]; simpl; [constructor|exact IHl].
  - rewrite (Permutation_filter _ _ _ (list_prod_cons_r ls sl sls)).
    rewrite filter_app, filter_map_swap. unfold joins_for at 1. simpl.
    destruct (sitterRoleId sl =? s) eqn:E; simpl.
    + apply Permutation_app; [|exact IH].
      erewrite filter_ext; [reflexivity|].
      intros l. simpl. now rewrite andb_true_r, Z.eqb_sym.
    + rewrite (filter_none _ ls) by (intros l; apply andb_false_r). exact IH.
Qed.

Lemma select_saved_join_step (w : Runtime) (t : Table Listing)
    (s : Table SavedListing) (sitter : Z) :
  listings (file w) = Some t ->
  saved_listings (file w) = Some s ->
  select_saved_join sitter w
  = (Fulfilled
       (map fst (order_by_desc (fun p => savedAt (snd p))
                   (joined sitter (rows t) (rows s)))),
     w).
Proof.
  intros Ht Hs.
  unfold select_saved_join, table_listings, table_saved_listings, bind,
    get_file, ret.
  now rewrite Ht, Hs.
Qed.

(** C9: with both tables in place, [getSavedListingsForSitter] fulfils
    with the listing halves of the pairs (listing, bookmark) such that
    the bookmark's [listingId] is the listing's [id] and its
    [sitterRoleId] is the argument; the pairs are those of the two
    tables, each once per match, ordered by the bookmark's [savedAt]
    descending. *)
Theorem getSavedListingsForSitter_join
    (w : Runtime) (t : Table Listing) (s : Table SavedListing) (sitter : Z) :
  listings (file w) = Some t ->
  saved_listings (file w) = Some s ->
  exists pairs,
    getSavedListingsForSitter sitter w = (Fulfilled (map fst pairs), opened w) /\
    Permutation pairs
      (filter (joins_for sitter) (list_prod (rows t) (rows s))) /\
    StronglySorted (desc (fun p => savedAt (snd p))) pairs /\
    (forall l sl,
        In (l, sl) pairs <->
        In l (rows t) /\ In sl (rows s) /\
        listingId sl = id l /\ sitterRoleId sl = sitter) /\
    (forall l,
        In l (map fst pairs) <->
        In l (rows t) /\
        exists sl, In sl (rows s) /\
                   listingId sl = id l /\ sitterRoleId sl = sitter).
Proof.
  intros Ht Hs.
  exists (order_by_desc (fun p => savedAt (snd p))
            (joined sitter (rows t) (rows s))).
  assert (Hin : forall l sl,
             In (l, sl) (order_by_desc (fun p => savedAt (snd p))
                           (joined sitter (rows t) (rows s))) <->
             In l (rows t) /\ In sl (rows s) /\
             listingId sl = id l /\ sitterRoleId sl = sitter).
  { intros l sl.
    rewrite order_by_desc_In, joined_product, filter_In, in_prod_iff.
    unfold joins_for. simpl. rewrite andb_true_iff, !Z.eqb_eq. tauto. }
  split.
  { unfold getSavedListingsForSitter. rewrite bind_getDatabase.
    exact (select_saved_join_step (opened w) t s sitter Ht Hs). }
  split. { rewrite order_by_desc_perm, joined_product. reflexivity. }
  split. { apply order_by_desc_sorted. }
  split. { exact Hin. }
  intros l. rewrite in_map_iff. split.
  - intros ([l' sl] & E & Hp). simpl in E. subst l'.
    apply Hin in Hp. destruct Hp as (Hl & Hsl & Hid & Hsit).
    split; [exact Hl|]. now exists sl.
  - intros (Hl & sl & Hsl & Hid & Hsit).
    exists (l, sl). split; [reflexivity|]. apply Hin. tauto.
Qed.

Lemma getSavedListingsForSitter_join_witness :
  exists pairs,
    getSavedListingsForSitter 7 example_runtime
    = (Fulfilled (map fst pairs), opened example_runtime) /\
    Permutation pairs
      (filter (joins_for 7)
         (list_prod (rows example_listings) (rows example_saved_listings))) /\
    StronglySorted (desc (fun p => savedAt (snd p))) pairs /\
    (forall l sl,
        In (l, sl) pairs <->
        In l (rows example_listings) /\ In sl (rows example_saved_listings) /\
        listingId sl = id l /\ sitterRoleId sl = 7) /\
    (forall l,
        In l (map fst pairs) <->
        In l (rows example_listings) /\
        exists sl, In sl (rows example_saved_listings) /\
                   listingId sl = id l /\ sitterRoleId sl = 7).
Proof.
  apply (getSavedListingsForSitter_join example_runtime example_listings
           example_saved_listings 7); reflexivity.
Defined.

(** Sitter 7 bookmarked listing 1 and then listing 3. *)
Example saved_for_sitter_7 :
  match fst (getSavedListingsForSitter 7 example_runtime) with
  | Fulfilled r => map id r
  | Rejected _ => []
  end = [3; 1].
Proof. reflexivity. Qed.

(* ------------------------------------------------------------------ *)
(** ** Deleting a listing *)

Lemma deleteListing_step (w : Runtime) (t : Table Listing) (i : Z) :
  listings (file w) = Some t ->
  deleteListing i w
  = (Fulfilled tt,
     with_file (after_delete i (connection w) t (saved_listings (file w)))
       (opened w)).
Proof.
  intros H. unfold deleteListing. rewrite bind_getDatabase.
  unfold delete_from_listings_where_id, table_listings, put_listings,
    put_saved_listings, bind, get_file, put_file, ret, after_delete.
  destruct w as [c [lt st] clk n]. simpl in *. subst lt. simpl.
  destruct st as [s|]; [|reflexivity]. simpl.
  destruct (foreign_keys _ && _); reflexivity.
Qed.

(** Whatever the connection enforces, a deleted listing is gone from the
    table, from [getAllListings] and from every sitter's saved list: the
    bookmark join finds no listing for a bookmark left behind. *)
Lemma deleteListing_not_listed (w : Runtime) (t : Table Listing) (i : Z) :
  listings (file w) = Some t ->
  exists w',
    deleteListing i w = (Fulfilled tt, w') /\
    (forall l, In l (listing_rows w') -> id l <> i) /\
    (forall r, fst (getAllListings w') = Fulfilled r ->
               forall l, In l r -> id l <> i) /\
    (forall sitter r, fst (getSavedListingsForSitter sitter w') = Fulfilled r ->
                      forall l, In l r -> id l <> i).
Proof.
  intros H. eexists. split; [exact (deleteListing_step w t i H)|].
  set (t' := mkTable (filter (fun l => negb (id l =? i)) (rows t))
                     (sqlite_sequence t)).
  assert (Hgone : forall l, In l (rows t') -> id l <> i).
  { intros l Hl. simpl in Hl. apply filter_In in Hl. destruct Hl as [_ Hl].
    apply negb_true_iff, Z.eqb_neq in Hl. exact Hl. }
  split; [exact Hgone|]. split.
  - intros r. erewrite getAllListings_step by reflexivity. simpl.
    intros [= <-] l Hl. apply order_by_desc_In, filter_In in Hl.
    apply Hgone. tauto.
  - intros sitter r. unfold getSavedListingsForSitter.
    rewrite bind_getDatabase.
    unfold select_saved_join, table_listings, table_saved_listings, bind,
      get_file, ret, throw, after_delete.
    simpl.
    destruct (saved_listings (file w)) as [s|]; [|discriminate].
    destruct (foreign_keys (connection w) && _); simpl;
      intros [= <-] l Hl;
      apply in_map_iff in Hl; destruct Hl as ([l' sl] & E & Hp);
      simpl in E; subst l';
      rewrite order_by_desc_In, joined_product, filter_In, in_prod_iff in Hp;
      now apply Hgone.
Qed.

(** On a connection that enforces foreign keys, deleting an existing
    listing takes its bookmarks along; on one that does not, the
    [saved_listings] table is left exactly as it was. *)
Lemma deleteListing_bookmarks (w : Runtime) (t : Table Listing)
    (s : Table SavedListing) (i : Z) :
  listings (file w) = Some t ->
  saved_listings (file w) = Some s ->
  let w' := snd (deleteListing i w) in
  (foreign_keys (connection w) = true ->
   (exists l, In l (rows t) /\ id l = i) ->
   forall sl, In sl (saved_rows w') -> listingId sl <> i) /\
  (foreign_keys (connection w) = false ->
   saved_listings (file w') = Some s).
Proof.
  intros Ht Hs. rewrite (deleteListing_step w t i Ht). simpl.
  unfold saved_rows, after_delete. rewrite Hs. simpl. split.
  - intros Hfk (l & Hl & Hid). rewrite Hfk. simpl.
    assert (existsb (fun l => id l =? i) (rows t) = true) as ->.
    { apply existsb_exists. exists l. split; [exact Hl|]. now apply Z.eqb_eq. }
    simpl. intros sl Hsl. apply filter_In in Hsl. destruct Hsl as [_ Hsl].
    now apply negb_true_iff, Z.eqb_neq in Hsl.
  - intros Hfk. now rewrite Hfk.
Qed.

(* ------------------------------------------------------------------ *)
(** ** What a call cannot break *)

Create HintDb frame.

Lemma stable_ret {A} (P : Runtime -> Prop) (a : A) : stable P (ret a).
Proof. intros w Hw. exact Hw. Qed.

Lemma stable_throw {A} (P : Runtime -> Prop) (e : SQLiteError) :
  stable P (@throw A e).
Proof. intros w Hw. exact Hw. Qed.

Lemma stable_bind {A B} (P : Runtime -> Prop) (m : Promise A)
    (k : A -> Promise B) :
  stable P m -> (forall a, stable P (k a)) -> stable P (bind m k).
Proof.
  intros Hm Hk w Hw. unfold bind. specialize (Hm w Hw).
  destruct (m w) as [[a|e] w']; simpl in *; [now apply Hk|exact Hm].
Qed.

Lemma stable_for_of {A} (P : Runtime -> Prop) (xs : list A)
    (f : A -> Promise unit) :
  (forall x, stable P (f x)) -> stable P (for_of xs f).
Proof.
  intros Hf. induction xs as [|x xs IH]; simpl.
  - apply stable_ret.
  - apply stable_bind; auto.
Qed.

Lemma stable_get_file (P : Runtime -> Prop) : stable P get_file.
Proof. intros w Hw. exact Hw. Qed.

#[export] Hint Resolve stable_ret stable_throw stable_bind stable_for_of
  stable_get_file : frame.
#[export] Hint Extern 1 (stable _ (match ?x with _ => _ end)) =>
  destruct x : frame.

Section Frame.
Variable P : Runtime -> Prop.
Hypothesis HP : frame P.

Lemma stable_getDatabase : stable P getDatabase.
Proof.
  intros w Hw. rewrite getDatabase_step. simpl. now apply frame_opened.
Qed.

Lemma stable_openDB : stable P openDB.
Proof. exact stable_getDatabase. Qed.

Lemma stable_clock : stable P Date_now_toISOString.
Proof. intros w Hw. simpl. now apply frame_clock. Qed.

Lemma stable_put_listings (t : Table Listing) : stable P (put_listings t).
Proof. intros w Hw. simpl. now apply frame_listings. Qed.

Lemma stable_create_table_listings : stable P create_table_listings.
Proof.
  intros w Hw. unfold create_table_listings, bind, get_file, put_file, ret.
  destruct (listings (file w)); simpl; [exact Hw|].
  now apply frame_listings.
Qed.

Lemma stable_create_table_saved_listings :
  stable P create_table_saved_listings.
Proof.
  intros w Hw.
  unfold create_table_saved_listings, bind, get_file, put_file, ret.
  destruct (saved_listings (file w)) eqn:E; simpl; [exact Hw|].
  now apply frame_create_saved.
Qed.

Hint Resolve stable_getDatabase stable_openDB stable_clock
  stable_put_listings stable_create_table_listings
  stable_create_table_saved_listings : frame.

Lemma stable_table_listings : stable P table_listings.
Proof. unfold table_listings. auto with frame. Qed.

Lemma stable_table_saved_listings : stable P table_saved_listings.
Proof. unfold table_saved_listings. auto with frame. Qed.

Hint Resolve stable_table_listings stable_table_saved_listings : frame.

Lemma stable_insert_into_listings creator type loc start_ end_ descr created :
  stable P (insert_into_listings creator type loc start_ end_ descr created).
Proof. unfold insert_into_listings. auto 10 with frame. Qed.

Hint Resolve stable_insert_into_listings : frame.

Lemma stable_seedSampleData (c : SQLiteDatabase) :
  stable P (seedSampleData c).
Proof. unfold seedSampleData, sampleListings. auto 20 with frame. Qed.

Hint Resolve stable_seedSampleData : frame.

Lemma stable_initDatabase : stable P initDatabase.
Proof. unfold initDatabase, count_listings. auto 20 with frame. Qed.

Lemma stable_createListing creator type loc start_ end_ descr :
  stable P (createListing creator type loc start_ end_ descr).
Proof. unfold createListing. auto 10 with frame. Qed.

Lemma stable_getAllListings : stable P getAllListings.
Proof. unfold getAllListings, select_listings. auto 10 with frame. Qed.

Hint Resolve stable_getAllListings : frame.

Lemma stable_getListingsByCreator creator :
  stable P (getListingsByCreator creator).
Proof. unfold getListingsByCreator, select_listings. auto 10 with frame. Qed.

Lemma stable_getListingById i : stable P (getListingById i).
Proof. unfold getListingById, first_listing_with_id. auto 10 with frame. Qed.

Lemma stable_filterListingsByType type :
  stable P (filterListingsByType type).
Proof.
  unfold filterListingsByType, select_listings. auto 10 with frame.
Qed.

Lemma stable_updateListing i type loc start_ end_ descr :
  stable P (updateListing i type loc start_ end_ descr).
Proof.
  unfold updateListing, update_listings_where_id. auto 10 with frame.
Qed.

Lemma stable_isListingSaved l s : stable P (isListingSaved l s).
Proof. unfold isListingSaved, first_saved_with_pair. auto 10 with frame. Qed.

Lemma stable_getSavedListingsForSitter s :
  stable P (getSavedListingsForSitter s).
Proof.
  unfold getSavedListingsForSitter, select_saved_join. auto 10 with frame.
Qed.

(** The calls that write bookmarks need more of [P]. *)
Hypothesis HS : ignores_saved P.

Lemma stable_put_saved_listings (t : Table SavedListing) :
  stable P (put_saved_listings t).
Proof. intros w Hw. simpl. now apply HS. Qed.

Hint Resolve stable_put_saved_listings : frame.

Lemma stable_deleteListing i : stable P (deleteListing i).
Proof.
  unfold deleteListing, delete_from_listings_where_id. auto 20 with frame.
Qed.

Lemma stable_saveListingForSitter l s : stable P (saveListingForSitter l s).
Proof.
  unfold saveListingForSitter, first_saved_with_pair,
    insert_into_saved_listings.
  auto 20 with frame.
Qed.

Lemma stable_unsaveListingForSitter l s :
  stable P (unsaveListingForSitter l s).
Proof.
  unfold unsaveListingForSitter, delete_from_saved_listings_where_pair.
  auto 20 with frame.
Qed.

Lemma stable_perform (c : Call) (w : Runtime) : P w -> P (perform c w).
Proof.
  destruct c; simpl;
    first [ apply stable_initDatabase | apply stable_createListing
          | apply stable_getAllListings | apply stable_getListingsByCreator
          | apply stable_getListingById | apply stable_filterListingsByType
          | apply stable_updateListing | apply stable_deleteListing
          | apply stable_saveListingForSitter
          | apply stable_unsaveListingForSitter | apply stable_isListingSaved
          | apply stable_getSavedListingsForSitter ].
Qed.

Lemma stable_session (cs : list Call) (w : Runtime) :
  P w -> P (session cs w).
Proof.
  unfold session. revert w.
  induction cs as [|c cs IH]; simpl; intros w Hw; [exact Hw|].
  apply IH. now apply stable_perform.
Qed.
End Frame.

Lemma frame_connection (c0 : SQLiteDatabase) :
  frame (fun w => connection w = c0).
Proof. split; intros; assumption. Qed.

Lemma ignores_saved_connection (c0 : SQLiteDatabase) :
  ignores_saved (fun w => connection w = c0).
Proof. intros w t H. exact H. Qed.

(** No call executes a pragma: a session that starts with the first
    launch runs on a connection that does not enforce foreign keys. *)
Lemma session_never_enforces (clk : nat -> string) (cs : list Call) :
  foreign_keys (connection (session cs (first_launch clk))) = false.
Proof.
  rewrite (stable_session _ (frame_connection (mkConnection false))
             (ignores_saved_connection _) cs (first_launch clk));
    reflexivity.
Qed.

Lemma frame_saved_rows (r : list SavedListing) :
  frame (fun w => saved_rows w = r).
Proof.
  split; try (intros; assumption).
  intros w E H. unfold saved_rows in *. rewrite E in H. exact H.
Qed.

(** In a session that starts with the first launch, [deleteListing]
    never touches the [saved_listings] table. *)
Lemma deleteListing_never_cascades (clk : nat -> string) (cs : list Call)
    (i : Z) :
  let w := session cs (first_launch clk) in
  saved_listings (file (snd (deleteListing i w))) = saved_listings (file w).
Proof.
  intros w. pose proof (session_never_enforces clk cs) as Hfk. fold w in Hfk.
  destruct (listings (file w)) as [t|] eqn:Et.
  - rewrite (deleteListing_step w t i Et). simpl. rewrite Hfk. simpl.
    now destruct (saved_listings (file w)).
  - unfold deleteListing. rewrite bind_getDatabase.
    unfold delete_from_listings_where_id, table_listings, bind, get_file,
      throw.
    simpl. now rewrite Et.
Qed.

(** C1: on the store the application opens, the bookmark of a listing
    outlives the listing.  After the first launch a sitter saves sample
    listing 1 and the requester deletes it: the listing is gone, its
    [saved_listings] row is still there and [isListingSaved] still
    answers true, although the schema declares [ON DELETE CASCADE]; the
    connection was opened without [PRAGMA foreign_keys = ON]. *)
Theorem deleteListing_leaves_bookmark_row :
  let w := session [Initialize; Save 1 7; Delete 1] (first_launch example_clock) in
  foreign_keys (connection w) = false /\
  map id (listing_rows w) = [2; 3; 4; 5] /\
  saved_rows w = [mkSavedListing 1 1 7 "2025-01-02T08:30:00.000Z"] /\
  orphans w = saved_rows w /\
  fst (isListingSaved 1 7 w) = Fulfilled true /\
  fst (getSavedListingsForSitter 7 w) = Fulfilled [].
Proof. vm_compute. repeat split. Qed.

(* ------------------------------------------------------------------ *)
(** ** Bookmarks *)



Lemma find_some_count {A} (p : A -> bool) (l : list A) (x : A) :
  find p l = Some x -> (1 <= List.length (filter p l))%nat.
Proof.
  induction l as [|y l IH]; simpl; [discriminate|].
  destruct (p y); simpl; [lia|exact IH].
Qed.

Lemma same_pair_eq (l s l' s' : Z) (n : Z) (at_ : string) :
  same_pair l' s' (mkSavedListing n l s at_) = true <-> l = l' /\ s = s'.
Proof.
  unfold same_pair. simpl. rewrite andb_true_iff, !Z.eqb_eq. tauto.
Qed.

(** What [saveListingForSitter] does to the bookmarks: nothing, or it
    appends a bookmark for a pair that had none. *)
Lemma saveListingForSitter_rows (l s : Z) (w : Runtime) :
  let w' := snd (saveListingForSitter l s w) in
  saved_rows w' = saved_rows w \/
  (find (same_pair l s) (saved_rows w) = None /\
   exists n at_, saved_rows w' = (saved_rows w ++ [mkSavedListing n l s at_])%list).
Proof.
  unfold saveListingForSitter. rewrite bind_getDatabase.
  unfold first_saved_with_pair, table_saved_listings, bind, get_file, ret,
    throw, saved_rows.
  simpl. destruct (saved_listings (file w)) as [t|] eqn:Et; simpl.
  2:{ left. now rewrite Et. }
  destruct (find (same_pair l s) (rows t)) eqn:Ef; simpl.
  { left. now rewrite Et. }
  unfold insert_into_saved_listings, table_saved_listings, put_saved_listings,
    bind, get_file, put_file, ret, throw.
  simpl. rewrite Et.
  destruct (foreign_keys (connection w) && _); simpl.
  { left. now rewrite Et. }
  destruct (new_rowid saved_id t) as [n|]; simpl.
  - right. split; [reflexivity|]. eexists. eexists. reflexivity.
  - left. now rewrite Et.
Qed.

(** A fulfilled [saveListingForSitter] leaves the connection cached and a
    bookmark for the pair in the table. *)
Lemma saveListingForSitter_fulfilled (l s : Z) (w w' : Runtime) :
  saveListingForSitter l s w = (Fulfilled tt, w') ->
  opened w' = w' /\
  exists t sl, saved_listings (file w') = Some t /\
               find (same_pair l s) (rows t) = Some sl.
Proof.
  unfold saveListingForSitter. rewrite bind_getDatabase.
  unfold first_saved_with_pair, table_saved_listings, bind, get_file, ret,
    throw.
  simpl. destruct (saved_listings (file w)) as [t|] eqn:Et; simpl;
    [|discriminate].
  destruct (find (same_pair l s) (rows t)) as [sl|] eqn:Ef; simpl.
  { intros [= <-]. split; [reflexivity|]. exists t, sl. simpl. now split. }
  unfold insert_into_saved_listings, table_saved_listings, put_saved_listings,
    bind, get_file, put_file, ret, throw.
  simpl. rewrite Et.
  destruct (foreign_keys (connection w) && _); simpl; [discriminate|].
  destruct (new_rowid saved_id t) as [n|]; simpl; [|discriminate].
  intros [= <-]. split; [reflexivity|].
  eexists. eexists. split; [reflexivity|]. simpl.
  apply find_appended.
  - intros y Hy. eapply find_none in Ef; eauto.
  - apply same_pair_eq. now split.
Qed.



(** The two halves put together are the function. *)
Lemma saveListingForSitter_halves (l s : Z) (w : Runtime) :
  saveListingForSitter l s w
  = bind (saveListingForSitter_selected l s)
         (saveListingForSitter_resumed l s) w.
Proof.
  unfold saveListingForSitter, saveListingForSitter_selected,
    saveListingForSitter_resumed.
  unfold bind.
  destruct (getDatabase w) as [[c|e] w0]; [|reflexivity].
  destruct (first_saved_with_pair l s w0) as [[existing|e] w'];
    reflexivity.
Qed.





(** Saving the same listing twice on the example store. *)
Example save_twice :
  let w1 := snd (saveListingForSitter 4 7 example_runtime) in
  fst (saveListingForSitter 4 7 example_runtime) = Fulfilled tt /\
  saveListingForSitter 4 7 w1 = (Fulfilled tt, w1) /\
  bookmarks 4 7 w1 = 1%nat.
Proof. vm_compute. repeat split. Qed.

(* ------------------------------------------------------------------ *)
(** ** Initialisation and seeding *)

Lemma initDatabase_unfold (w : Runtime) :
  initDatabase w
  = match listing_rows w with
    | [] =>
        seedSampleData (connection w)
          (with_file (with_schema (file w)) (opened w))
    | _ :: _ => (Fulfilled tt, with_file (with_schema (file w)) (opened w))
    end.
Proof.
  unfold initDatabase. unfold bind at 1. rewrite openDB_step.
  unfold create_table_listings, create_table_saved_listings, count_listings,
    table_listings, bind, get_file, put_file, ret, listing_rows, with_schema.
  destruct w as [c [[[[|r rs] q]|] [st|]] clk n]; reflexivity.
Qed.

Lemma insert_into_listings_outcome (w : Runtime) (t : Table Listing)
    (creator : Z) (type : SitterType) (loc start_ end_ descr created : string) :
  listings (file w) = Some t ->
  (exists n,
      insert_into_listings creator type loc start_ end_ descr created w
      = (Fulfilled n,
         with_file
           (with_listings
              (mkTable
                 (rows t ++
                  [mkListing n creator type loc start_ end_ descr created])
                 n)
              (file w))
           w))
  \/ insert_into_listings creator type loc start_ end_ descr created w
     = (Rejected DatabaseFull, w).
Proof.
  intros H. destruct (new_rowid id t) as [n|] eqn:En.
  - left. exists n. now apply insert_into_listings_step.
  - right.
    unfold insert_into_listings, table_listings, bind, get_file, ret, throw.
    now rewrite H, En.
Qed.

(** A seeding loop that runs to its end has appended one row per sample,
    in order, and touched nothing else. *)
Lemma seeding_loop_fulfilled (samples : list SampleListing) :
  forall (w w' : Runtime) (t : Table Listing),
    listings (file w) = Some t ->
    for_of samples
      (fun listing =>
         insert_into_listings
           (sample_creatorRoleId listing) (sample_sitterType listing)
           (sample_location listing) (sample_startDate listing)
           (sample_endDate listing) (sample_description listing)
           (sample_createdAt listing) ;;;
         ret tt) w = (Fulfilled tt, w') ->
    exists ids t',
      List.length ids = List.length samples /\
      listings (file w') = Some t' /\
      rows t' = (rows t ++ stored_all ids samples)%list /\
      saved_listings (file w') = saved_listings (file w) /\
      db w' = db w /\ clock w' = clock w /\ reads w' = reads w.
Proof.
  induction samples as [|x samples IH]; simpl; intros w w' t Ht.
  - intros [= <-]. exists [], t. rewrite app_nil_r. now repeat split.
  - unfold bind at 1. unfold bind at 1.
    destruct (insert_into_listings_outcome w t
                (sample_creatorRoleId x) (sample_sitterType x)
                (sample_location x) (sample_startDate x) (sample_endDate x)
                (sample_description x) (sample_createdAt x) Ht)
      as [[n ->]| ->]; [|discriminate].
    unfold ret at 1. intros Hrest.
    eapply IH in Hrest; [|reflexivity].
    destruct Hrest as (ids & t' & Hlen & Ht' & Hrows & Hs & Hdb & Hclk & Hrd).
    exists (n :: ids), t'. simpl in *.
    split; [now rewrite Hlen|]. split; [exact Ht'|].
    split; [now rewrite Hrows, <- app_assoc|]. now repeat split.
Qed.

Lemma sampleListings_step (w : Runtime) :
  exists samples,
    sampleListings w
    = (Fulfilled samples,
       mkRuntime (db w) (file w) (clock w) (5 + reads w)) /\
    List.length samples = 5%nat /\
    Forall (fun s => sample_creatorRoleId s = 1) samples /\
    map sample_sitterType samples = [PET; HOUSE; BOTH; PET; HOUSE] /\
    map sample_createdAt samples
    = map (fun k => clock w (k + reads w)%nat) [0; 1; 2; 3; 4]%nat.
Proof.
  eexists. split; [reflexivity|]. split; [reflexivity|].
  split; [repeat constructor|]. split; reflexivity.
Qed.

Lemma seedSampleData_fulfilled (c : SQLiteDatabase) (w w' : Runtime)
    (t : Table Listing) :
  listings (file w) = Some t ->
  seedSampleData c w = (Fulfilled tt, w') ->
  exists samples ids t',
    fst (sampleListings w) = Fulfilled samples /\
    List.length ids = 5%nat /\
    listings (file w') = Some t' /\
    rows t' = (rows t ++ stored_all ids samples)%list /\
    saved_listings (file w') = saved_listings (file w) /\
    db w' = db w /\ clock w' = clock w /\ reads w' = (5 + reads w)%nat.
Proof.
  intros Ht. unfold seedSampleData. unfold bind at 1.
  destruct (sampleListings_step w) as (samples & -> & Hlen & _).
  intros Hloop.
  eapply seeding_loop_fulfilled in Hloop; [|exact Ht].
  destruct Hloop as (ids & t' & Hids & Ht' & Hrows & Hs & Hdb & Hclk & Hrd).
  exists samples, ids, t'. simpl in *. rewrite Hids, Hlen. now repeat split.
Qed.

Lemma schema_in_place (w : Runtime) (c : SQLiteDatabase)
    (t : Table Listing) (s : Table SavedListing) :
  db w = Some c ->
  listings (file w) = Some t ->
  saved_listings (file w) = Some s ->
  with_file (with_schema (file w)) (opened w) = w.
Proof.
  destruct w as [d [lt st] clk n]. simpl. intros -> -> ->. reflexivity.
Qed.

Lemma stored_all_length (ids : list Z) (samples : list SampleListing) :
  List.length ids = List.length samples ->
  List.length (stored_all ids samples) = List.length samples.
Proof.
  intros H. unfold stored_all. rewrite length_map, length_combine. lia.
Qed.

(** C3: once [initDatabase] has been fulfilled, both tables exist and a
    second [initDatabase] is fulfilled without changing anything, neither
    schema nor rows nor clock readings.  A first call that found listings
    left them alone and did not seed; a first call that found none left
    exactly five rows, and five they remain after the second call. *)
Theorem initDatabase_idempotent (w w1 : Runtime) :
  initDatabase w = (Fulfilled tt, w1) ->
  initDatabase w1 = (Fulfilled tt, w1) /\
  (exists t s, file w1 = mkDatabase (Some t) (Some s)) /\
  (listing_rows w <> [] ->
   file w1 = with_schema (file w) /\ listing_rows w1 = listing_rows w /\
   reads w1 = reads w) /\
  (listing_rows w = [] ->
   List.length (listing_rows w1) = 5%nat /\
   List.length (listing_rows (snd (initDatabase w1))) = 5%nat).
Proof.
  rewrite initDatabase_unfold. intros H.
  assert (Hfacts :
            exists c t s,
              db w1 = Some c /\ listings (file w1) = Some t /\
              saved_listings (file w1) = Some s /\ rows t <> [] /\
              (listing_rows w <> [] ->
               file w1 = with_schema (file w) /\ reads w1 = reads w /\
               rows t = listing_rows w) /\
              (listing_rows w = [] -> List.length (rows t) = 5%nat)).
  { destruct (listing_rows w) as [|r rs] eqn:Er.
    - eapply seedSampleData_fulfilled in H; [|reflexivity].
      destruct H as (samples & ids & t' & Hsam & Hids & Ht' & Hrows & Hs
                     & Hdb & _ & _).
      destruct (sampleListings_step (with_file (with_schema (file w)) (opened w)))
        as (samples' & Hstep & Hlen & _).
      rewrite Hstep in Hsam. simpl in Hsam. injection Hsam as <-.
      assert (Hfive : List.length (rows t') = 5%nat).
      { rewrite Hrows, length_app, stored_all_length by congruence.
        unfold listing_rows in Er.
        destruct (listings (file w)) as [t0|]; simpl; [rewrite Er|];
          simpl; lia. }
      exists (connection w). eexists t'. eexists.
      split; [exact Hdb|]. split; [exact Ht'|].
      split; [rewrite Hs; reflexivity|].
      split; [intros E; rewrite E in Hfive; discriminate|].
      split; [congruence|]. intros _. exact Hfive.
    - injection H as <-.
      exists (connection w). eexists. eexists.
      split; [reflexivity|]. split; [reflexivity|]. split; [reflexivity|].
      unfold listing_rows in Er. simpl.
      destruct (listings (file w)) as [t0|]; [|discriminate].
      rewrite Er. split; [discriminate|]. split; [|discriminate].
      intros _. now repeat split. }
  destruct Hfacts as (c & t & s & Hdb & Ht & Hs & Hne & Hkeep & Hseed).
  assert (Hagain : initDatabase w1 = (Fulfilled tt, w1)).
  { rewrite initDatabase_unfold. unfold listing_rows. rewrite Ht.
    destruct (rows t) as [|r rs]; [congruence|].
    now rewrite (schema_in_place w1 c t s). }
  split; [exact Hagain|]. split.
  { exists t, s. destruct w1 as [d [lt st] clk n]. simpl in *. congruence. }
  split.
  - intros Hw. destruct (Hkeep Hw) as (Hf & Hr & Hrows).
    split; [exact Hf|]. split; [|exact Hr].
    unfold listing_rows at 1. now rewrite Ht.
  - intros Hw. rewrite Hagain. simpl. unfold listing_rows. rewrite Ht.
    split; now apply Hseed.
Qed.

Lemma initDatabase_idempotent_witness :
  initDatabase seeded_runtime = (Fulfilled tt, seeded_runtime) /\
  (exists t s, file seeded_runtime = mkDatabase (Some t) (Some s)) /\
  (listing_rows (first_launch example_clock) <> [] ->
   file seeded_runtime = with_schema (file (first_launch example_clock)) /\
   listing_rows seeded_runtime = listing_rows (first_launch example_clock) /\
   reads seeded_runtime = reads (first_launch example_clock)) /\
  (listing_rows (first_launch example_clock) = [] ->
   List.length (listing_rows seeded_runtime) = 5%nat /\
   List.length (listing_rows (snd (initDatabase seeded_runtime))) = 5%nat).
Proof.
  apply (initDatabase_idempotent (first_launch example_clock) seeded_runtime).
  vm_compute. reflexivity.
Defined.

(** C10: whatever the clock shows, the first launch is fulfilled; the
    five samples all have [creatorRoleId] 1 and the sitter types PET,
    HOUSE, BOTH, PET, HOUSE; they are stored under the ids 1 to 5, and
    [getListingsByCreator 1] on that store returns these five rows. *)
Theorem seeded_listings_by_creator (clk : nat -> string) :
  exists samples w1 result,
    fst (sampleListings (first_launch clk)) = Fulfilled samples /\
    List.length samples = 5%nat /\
    Forall (fun s => sample_creatorRoleId s = 1) samples /\
    map sample_sitterType samples = [PET; HOUSE; BOTH; PET; HOUSE] /\
    List.length (filter (fun s => SitterType_eqb (sample_sitterType s) PET)
                        samples) = 2%nat /\
    List.length (filter (fun s => SitterType_eqb (sample_sitterType s) HOUSE)
                        samples) = 2%nat /\
    List.length (filter (fun s => SitterType_eqb (sample_sitterType s) BOTH)
                        samples) = 1%nat /\
    initDatabase (first_launch clk) = (Fulfilled tt, w1) /\
    listing_rows w1 = stored_all [1; 2; 3; 4; 5] samples /\
    Forall (fun l => creatorRoleId l = 1) (listing_rows w1) /\
    getListingsByCreator 1 w1 = (Fulfilled result, w1) /\
    Permutation result (listing_rows w1) /\
    List.length result = 5%nat.
Proof.
  pose (w1 := snd (initDatabase (first_launch clk))).
  assert (Hrows : exists t, listings (file w1) = Some t /\
                            rows t = listing_rows w1).
  { eexists. split; vm_compute; reflexivity. }
  destruct Hrows as (t & Ht & Hrows).
  exists (match fst (sampleListings (first_launch clk)) with
          | Fulfilled x => x
          | Rejected _ => []
          end), w1, (order_by_desc createdAt (listing_rows w1)).
  split; [vm_compute; reflexivity|]. split; [vm_compute; reflexivity|].
  split; [vm_compute; repeat constructor|].
  split; [vm_compute; reflexivity|]. split; [vm_compute; reflexivity|].
  split; [vm_compute; reflexivity|]. split; [vm_compute; reflexivity|].
  split; [vm_compute; reflexivity|]. split; [vm_compute; reflexivity|].
  split; [vm_compute; repeat constructor|].
  split.
  { unfold getListingsByCreator. rewrite bind_getDatabase.
    rewrite (select_listings_step _ (opened w1) t Ht), Hrows.
    assert (filter (fun l => creatorRoleId l =? 1) (listing_rows w1)
            = listing_rows w1) as -> by (vm_compute; reflexivity).
    reflexivity. }
  split; [apply order_by_desc_perm|].
  rewrite (Permutation_length (order_by_desc_perm createdAt _)).
  vm_compute. reflexivity.
Qed.

(* ------------------------------------------------------------------ *)
(** ** What the writes to the listings table keep *)

Section Writes.
Variable P : Runtime -> Prop.
Hypothesis HP : write_closed P.

Lemma kept_getDatabase : stable P getDatabase.
Proof. intros w Hw. rewrite getDatabase_step. exact (wc_opened P HP w Hw). Qed.

Lemma kept_clock : stable P Date_now_toISOString.
Proof. intros w Hw. exact (wc_clock P HP w Hw). Qed.

Lemma kept_table_listings : stable P table_listings.
Proof. unfold table_listings. auto with frame. Qed.

Lemma kept_table_saved_listings : stable P table_saved_listings.
Proof. unfold table_saved_listings. auto with frame. Qed.

Lemma kept_put_saved_listings (t : Table SavedListing) :
  stable P (put_saved_listings t).
Proof. intros w Hw. exact (wc_saved P HP w t Hw). Qed.

Lemma kept_create_table_listings : stable P create_table_listings.
Proof.
  intros w Hw. unfold create_table_listings, bind, get_file, put_file, ret.
  destruct (listings (file w)) eqn:E; simpl; [exact Hw|].
  now apply wc_create.
Qed.

Lemma kept_create_table_saved_listings : stable P create_table_saved_listings.
Proof.
  intros w Hw.
  unfold create_table_saved_listings, bind, get_file, put_file, ret.
  destruct (saved_listings (file w)); simpl; [exact Hw|].
  now apply wc_saved.
Qed.

Lemma kept_insert_into_listings creator type loc start_ end_ descr created :
  stable P (insert_into_listings creator type loc start_ end_ descr created).
Proof.
  intros w Hw.
  unfold insert_into_listings, table_listings, put_listings, bind, get_file,
    put_file, ret, throw.
  destruct (listings (file w)) as [t|] eqn:E; simpl; [|exact Hw].
  destruct (new_rowid id t) as [n|] eqn:En; simpl; [|exact Hw].
  now apply wc_insert.
Qed.

Lemma kept_update_listings type loc start_ end_ descr i :
  stable P (update_listings_where_id type loc start_ end_ descr i).
Proof.
  intros w Hw.
  unfold update_listings_where_id, table_listings, put_listings, bind,
    get_file, put_file, ret, throw.
  destruct (listings (file w)) as [t|] eqn:E; simpl; [|exact Hw].
  apply wc_update; auto.
  intros l. now destruct (id l =? i).
Qed.

Lemma kept_delete_from_listings conn i :
  stable P (delete_from_listings_where_id conn i).
Proof.
  intros w Hw.
  unfold delete_from_listings_where_id, table_listings, put_listings,
    put_saved_listings, bind, get_file, put_file, ret, throw.
  destruct (listings (file w)) as [t|] eqn:E; simpl; [|exact Hw].
  pose proof (wc_delete P HP w t (fun l => negb (id l =? i)) E Hw) as Hd.
  destruct (saved_listings (file w)) as [s|]; simpl; [|exact Hd].
  destruct (foreign_keys conn && _); simpl; [|exact Hd].
  exact (wc_saved P HP _ _ Hd).
Qed.

Hint Resolve kept_getDatabase kept_clock kept_table_listings
  kept_table_saved_listings kept_put_saved_listings
  kept_create_table_listings kept_create_table_saved_listings
  kept_insert_into_listings kept_update_listings kept_delete_from_listings
  : frame.

Lemma kept_perform (c : Call) (w : Runtime) : P w -> P (perform c w).
Proof.
  assert (Hopen : stable P openDB) by exact kept_getDatabase.
  revert w. destruct c; simpl;
    [ change (stable P initDatabase)
    | change (stable P (createListing creator type loc start_ end_ descr))
    | change (stable P getAllListings)
    | change (stable P (getListingsByCreator creator))
    | change (stable P (getListingById i))
    | change (stable P (filterListingsByType type))
    | change (stable P (updateListing i type loc start_ end_ descr))
    | change (stable P (deleteListing i))
    | change (stable P (saveListingForSitter l s))
    | change (stable P (unsaveListingForSitter l s))
    | change (stable P (isListingSaved l s))
    | change (stable P (getSavedListingsForSitter s)) ];
    unfold initDatabase, seedSampleData, sampleListings, count_listings,
      createListing, getAllListings, getListingsByCreator, getListingById,
      filterListingsByType, getAllListings, updateListing, deleteListing,
      saveListingForSitter, unsaveListingForSitter, isListingSaved,
      getSavedListingsForSitter, select_listings, first_listing_with_id,
      first_saved_with_pair, insert_into_saved_listings,
      delete_from_saved_listings_where_pair, select_saved_join;
    auto 30 with frame.
Qed.

Lemma kept_session (cs : list Call) (w : Runtime) : P w -> P (session cs w).
Proof.
  unfold session. revert w.
  induction cs as [|c cs IH]; simpl; intros w Hw; [exact Hw|].
  apply IH. now apply kept_perform.
Qed.
End Writes.

(* ------------------------------------------------------------------ *)
(** ** Rowids *)

Lemma largest_rowid_nonneg {R} (rowid : R -> Z) (rs : list R) :
  0 <= largest_rowid rowid rs.
Proof. induction rs as [|r rs IH]; simpl; lia. Qed.

Lemma new_rowid_positive {R} (rowid : R -> Z) (t : Table R) (n : Z) :
  new_rowid rowid t = Some n -> 0 < n.
Proof.
  unfold new_rowid. destruct (_ <? _); [|discriminate]. intros [= <-].
  pose proof (largest_rowid_nonneg rowid (rows t)). lia.
Qed.

Lemma ascending_snoc (l : list Z) (n : Z) :
  StronglySorted Z.lt l -> Forall (fun i => i < n) l ->
  StronglySorted Z.lt (l ++ [n]).
Proof.
  induction 1 as [|x l Hs IH Hx]; simpl; intros Hn.
  - repeat constructor.
  - inversion Hn; subst. constructor; [now apply IH|].
    apply Forall_app. split; [exact Hx|]. now repeat constructor.
Qed.

Lemma ids_of_filter (p : Listing -> bool) (rs : list Listing) (i : Z) :
  In i (map id (filter p rs)) -> In i (map id rs).
Proof.
  rewrite !in_map_iff. intros (l & E & Hl). apply filter_In in Hl.
  exists l. tauto.
Qed.

Lemma ascending_filter (p : Listing -> bool) (rs : list Listing) :
  StronglySorted Z.lt (map id rs) ->
  StronglySorted Z.lt (map id (filter p rs)).
Proof.
  induction rs as [|r rs IH]; simpl; intros H; [constructor|].
  inversion H as [|? ? Hs Hr]; subst.
  destruct (p r); simpl; [|now apply IH].
  constructor; [now apply IH|].
  rewrite Forall_forall in *. intros i Hi. apply Hr.
  now apply ids_of_filter in Hi.
Qed.

Lemma ids_of_update (f : Listing -> Listing) (rs : list Listing) :
  (forall l, id (f l) = id l) -> map id (map f rs) = map id rs.
Proof. intros H. rewrite map_map. apply map_ext. exact H. Qed.

Lemma rowids_sound_closed : write_closed rowids_sound.
Proof.
  split; try (intros; assumption).
  - intros w E _. split; constructor.
  - intros w t n l E En Hl [Hs Hb].
    unfold rowids_sound, listing_ids, listing_rows, listings_sequence in *.
    simpl. rewrite E in *. rewrite map_app. simpl. rewrite Hl.
    destruct (new_rowid_fresh id t n En) as [Hseq Hfresh].
    pose proof (new_rowid_positive id t n En) as Hpos.
    split.
    + apply ascending_snoc; [exact Hs|].
      rewrite Forall_forall. intros i Hi. apply in_map_iff in Hi.
      destruct Hi as (r & <- & Hr). now apply Hfresh.
    + apply Forall_app. split.
      * eapply Forall_impl; [|exact Hb]. simpl. intros; lia.
      * repeat constructor; lia.
  - intros w t f E Hf [Hs Hb].
    unfold rowids_sound, listing_ids, listing_rows, listings_sequence in *.
    simpl. rewrite E in *. rewrite (ids_of_update f _ Hf). now split.
  - intros w t p E [Hs Hb].
    unfold rowids_sound, listing_ids, listing_rows, listings_sequence in *.
    simpl. rewrite E in *. split; [now apply ascending_filter|].
    rewrite Forall_forall in *. intros i Hi. apply Hb.
    now apply ids_of_filter in Hi.
Qed.

Lemma ascending_NoDup (l : list Z) : StronglySorted Z.lt l -> NoDup l.
Proof.
  induction 1 as [|x l Hs IH Hx]; constructor; [|exact IH].
  intros Hin. rewrite Forall_forall in Hx. apply Hx in Hin. lia.
Qed.

(** X1: the primary key holds along any sequence of calls: if the rowids
    of the listings table ascend, are positive and bounded by
    [sqlite_sequence], they still do afterwards, and no two listings
    share an id. *)
Theorem listing_ids_stay_unique (w : Runtime) (cs : list Call) :
  rowids_sound w ->
  rowids_sound (session cs w) /\ NoDup (listing_ids (session cs w)).
Proof.
  intros Hw.
  pose proof (kept_session _ rowids_sound_closed cs w Hw) as Hs.
  split; [exact Hs|]. apply ascending_NoDup. apply Hs.
Qed.

Lemma listing_ids_stay_unique_witness :
  rowids_sound (session [Initialize; Delete 2; Create 1 PET "a" "b" "c" "d"]
                  (first_launch example_clock)) /\
  NoDup (listing_ids
           (session [Initialize; Delete 2; Create 1 PET "a" "b" "c" "d"]
              (first_launch example_clock))).
Proof.
  apply (listing_ids_stay_unique (first_launch example_clock)).
  split; constructor.
Defined.

Lemma never_again_closed (i : Z) :
  write_closed
    (fun w => i <= listings_sequence w /\ ~ In i (listing_ids w)).
Proof.
  split; try (intros; assumption).
  - intros w E [Hq _].
    unfold listing_ids, listing_rows, listings_sequence in *.
    simpl. rewrite E in Hq. split; [exact Hq|]. intros [].
  - intros w t n l E En Hl [Hq Hi].
    unfold listing_ids, listing_rows, listings_sequence in *.
    simpl. rewrite E in *.
    destruct (new_rowid_fresh id t n En) as [Hseq _].
    split; [lia|]. rewrite map_app, in_app_iff. simpl. intros [H|[H|[]]].
    + now apply Hi.
    + lia.
  - intros w t f E Hf [Hq Hi].
    unfold listing_ids, listing_rows, listings_sequence in *.
    simpl. rewrite E in *. now rewrite (ids_of_update f _ Hf).
  - intros w t p E [Hq Hi].
    unfold listing_ids, listing_rows, listings_sequence in *.
    simpl. rewrite E in *. split; [exact Hq|].
    intros H. apply Hi. now apply ids_of_filter in H.
Qed.

(** X2: a deleted listing's id is never given out again.  When the
    primary key is sound and listing [i] exists, then after
    [deleteListing i] and any further sequence of calls no listing has
    id [i]; the table's [sqlite_sequence] remembers it. *)
Theorem deleted_id_never_returns (w : Runtime) (i : Z) (cs : list Call) :
  rowids_sound w ->
  In i (listing_ids w) ->
  ~ In i (listing_ids (session (Delete i :: cs) w)).
Proof.
  intros [Hs Hb] Hi.
  pose proof (proj1 (Forall_forall _ _) Hb i Hi) as Hle. simpl in Hle.
  unfold session. simpl. fold (session cs (snd (deleteListing i w))).
  apply (kept_session _ (never_again_closed i) cs).
  unfold listing_ids, listing_rows, listings_sequence in *.
  destruct (listings (file w)) as [t|] eqn:Et; [|destruct Hi].
  rewrite (deleteListing_step w t i Et). simpl. split; [lia|].
  rewrite in_map_iff. intros (l & E & Hl). apply filter_In in Hl.
  destruct Hl as [_ Hl]. apply negb_true_iff, Z.eqb_neq in Hl. congruence.
Qed.

Lemma deleted_id_never_returns_witness :
  ~ In 5 (listing_ids
            (session [Delete 5; Create 1 PET "a" "b" "c" "d";
                      Create 1 PET "e" "f" "g" "h"]
               seeded_runtime)).
Proof.
  apply (deleted_id_never_returns seeded_runtime 5
           [Create 1 PET "a" "b" "c" "d"; Create 1 PET "e" "f" "g" "h"]).
  - split; vm_compute; repeat constructor; discriminate.
  - vm_compute. tauto.
Defined.

(* ------------------------------------------------------------------ *)
(** ** The connection handle *)

Lemma frame_cached (c0 : SQLiteDatabase) : frame (fun w => db w = Some c0).
Proof.
  split; try (intros; assumption).
  intros w H. unfold opened, connection. simpl. now rewrite H.
Qed.

Lemma ignores_saved_cached (c0 : SQLiteDatabase) :
  ignores_saved (fun w => db w = Some c0).
Proof. intros w t H. exact H. Qed.

Lemma openDB_opened (w : Runtime) : openDB (opened w) = openDB w.
Proof. now rewrite !openDB_step. Qed.

Lemma bind_openDB_opened {A} (k : SQLiteDatabase -> Promise A) (w : Runtime) :
  bind openDB k (opened w) = bind openDB k w.
Proof. unfold bind. now rewrite openDB_opened. Qed.

Lemma perform_opened (c : Call) (w : Runtime) :
  perform c (opened w) = perform c w.
Proof.
  destruct c; simpl;
    unfold initDatabase, createListing, getAllListings, getListingsByCreator,
      getListingById, filterListingsByType, updateListing, deleteListing,
      saveListingForSitter, unsaveListingForSitter, isListingSaved,
      getSavedListingsForSitter, getDatabase;
    now rewrite bind_openDB_opened.
Qed.

(** X3: the connection is opened once.  Whatever calls are made and
    however they settle, they all work with the same connection, and
    after the first call the handle stays cached. *)
Theorem connection_opened_once (w : Runtime) (c : Call) (cs : list Call) :
  connection (session (c :: cs) w) = connection w /\
  db (session (c :: cs) w) = Some (connection w).
Proof.
  split.
  - now apply (stable_session _ (frame_connection (connection w))
                 (ignores_saved_connection _)).
  - unfold session. simpl. fold (session cs (perform c w)).
    apply (stable_session _ (frame_cached (connection w))
             (ignores_saved_cached _)).
    rewrite <- perform_opened.
    now apply (stable_perform _ (frame_cached (connection w))
                 (ignores_saved_cached _)).
Qed.

(* ------------------------------------------------------------------ *)
(** ** Reads *)

(** X4: the six reading functions never write: whether they fulfil or
    reject, the database file, the clock and the number of its readings
    are as before; only the connection handle is cached. *)
Theorem reads_change_nothing (w : Runtime) (creator i l s : Z)
    (type : TypeFilter) :
  snd (getAllListings w) = opened w /\
  snd (getListingsByCreator creator w) = opened w /\
  snd (getListingById i w) = opened w /\
  snd (filterListingsByType type w) = opened w /\
  snd (isListingSaved l s w) = opened w /\
  snd (getSavedListingsForSitter s w) = opened w /\
  file (opened w) = file w /\
  clock (opened w) = clock w /\
  reads (opened w) = reads w.
Proof.
  assert (Hsel : forall cond v, snd (select_listings cond v) = v).
  { intros cond v.
    unfold select_listings, table_listings, bind, get_file, ret, throw.
    now destruct (listings (file v)). }
  assert (Hall : snd (getAllListings w) = opened w).
  { unfold getAllListings. rewrite bind_getDatabase. apply Hsel. }
  split; [exact Hall|]. split.
  { unfold getListingsByCreator. rewrite bind_getDatabase. apply Hsel. }
  split.
  { unfold getListingById. rewrite bind_getDatabase.
    unfold first_listing_with_id, table_listings, bind, get_file, ret, throw.
    simpl. now destruct (listings (file w)). }
  split.
  { unfold filterListingsByType. rewrite bind_getDatabase.
    destruct type; [apply Hsel|].
    unfold getAllListings. rewrite bind_getDatabase. apply Hsel. }
  split.
  { unfold isListingSaved. rewrite bind_getDatabase.
    unfold first_saved_with_pair, table_saved_listings, bind, get_file, ret,
      throw.
    simpl. now destruct (saved_listings (file w)). }
  split; [|now repeat split].
  unfold getSavedListingsForSitter. rewrite bind_getDatabase.
  unfold select_saved_join, table_listings, table_saved_listings, bind,
    get_file, ret, throw.
  destruct w as [d [[lt|] [st|]] clk n]; reflexivity.
Qed.

(** X5: before initialisation nothing works and nothing is written.  On
    a database file without tables every function of the service
    rejects with "no such table" (for [listings], or for
    [saved_listings] where only that table is used) and leaves the file
    without tables. *)
Theorem service_before_initDatabase (w : Runtime) (c : Call) :
  file w = empty_database ->
  c <> Initialize ->
  file (perform c w) = empty_database /\
  match c with
  | Initialize => True
  | Create cr ty lo st en de =>
      fst (createListing cr ty lo st en de w) = Rejected (NoSuchTable "listings")
  | GetAll => fst (getAllListings w) = Rejected (NoSuchTable "listings")
  | GetByCreator cr =>
      fst (getListingsByCreator cr w) = Rejected (NoSuchTable "listings")
  | GetById i => fst (getListingById i w) = Rejected (NoSuchTable "listings")
  | FilterByType ty =>
      fst (filterListingsByType ty w) = Rejected (NoSuchTable "listings")
  | Update i ty lo st en de =>
      fst (updateListing i ty lo st en de w) = Rejected (NoSuchTable "listings")
  | Delete i => fst (deleteListing i w) = Rejected (NoSuchTable "listings")
  | Save l s =>
      fst (saveListingForSitter l s w) = Rejected (NoSuchTable "saved_listings")
  | Unsave l s =>
      fst (unsaveListingForSitter l s w)
      = Rejected (NoSuchTable "saved_listings")
  | IsSaved l s =>
      fst (isListingSaved l s w) = Rejected (NoSuchTable "saved_listings")
  | GetSavedForSitter s =>
      fst (getSavedListingsForSitter s w) = Rejected (NoSuchTable "listings")
  end.
Proof.
  intros Hf Hc. destruct w as [d f clk n]. simpl in Hf. subst f.
  destruct c; try congruence; try destruct type; destruct d; split;
    reflexivity.
Qed.

Lemma service_before_initDatabase_witness :
  file (perform (Save 1 7) (first_launch example_clock)) = empty_database /\
  fst (saveListingForSitter 1 7 (first_launch example_clock))
  = Rejected (NoSuchTable "saved_listings").
Proof.
  apply (service_before_initDatabase (first_launch example_clock) (Save 1 7)).
  - reflexivity.
  - discriminate.
Defined.

(* ------------------------------------------------------------------ *)
(** ** Looking a listing up *)

Lemma getListingById_step (w : Runtime) (t : Table Listing) (i : Z) :
  listings (file w) = Some t ->
  getListingById i w
  = (Fulfilled (find (fun l => id l =? i) (rows t)), opened w).
Proof.
  intros H. unfold getListingById. rewrite bind_getDatabase.
  unfold first_listing_with_id, table_listings, bind, get_file, ret.
  simpl. now rewrite H.
Qed.

Lemma find_unique_id (rs : list Listing) (l : Listing) :
  NoDup (map id rs) -> In l rs ->
  find (fun r => id r =? id l) rs = Some l.
Proof.
  induction rs as [|r rs IH]; simpl; intros Hnd Hin; [destruct Hin|].
  inversion Hnd as [|? ? Hr Hrs]; subst.
  destruct Hin as [->|Hin]; [now rewrite Z.eqb_refl|].
  destruct (id r =? id l) eqn:E; [|now apply IH].
  apply Z.eqb_eq in E. exfalso. apply Hr. rewrite E. now apply in_map.
Qed.

(** X6: with the listings table in place [getListingById] never rejects:
    it fulfils with null exactly when no row has the id, and otherwise
    with a row of the table that has it, which is the only such row when
    ids are unique. *)
Theorem getListingById_found_or_null
    (w : Runtime) (t : Table Listing) (i : Z) :
  listings (file w) = Some t ->
  exists r,
    getListingById i w = (Fulfilled r, opened w) /\
    (r = None <-> forall l, In l (rows t) -> id l <> i) /\
    (forall l, r = Some l -> In l (rows t) /\ id l = i) /\
    (NoDup (map id (rows t)) ->
     forall l, In l (rows t) -> id l = i -> r = Some l).
Proof.
  intros H. eexists. split; [exact (getListingById_step w t i H)|].
  split; [|split].
  - split.
    + intros Hn l Hl E. eapply find_none in Hn; eauto. simpl in Hn.
      apply Z.eqb_neq in Hn. congruence.
    + intros Hn. destruct (find _ _) as [l|] eqn:E; [|reflexivity].
      apply find_some in E. destruct E as [Hl E]. apply Z.eqb_eq in E.
      now destruct (Hn l Hl).
  - intros l E. apply find_some in E. now rewrite Z.eqb_eq in E.
  - intros Hnd l Hl <-. now apply find_unique_id.
Qed.

Lemma getListingById_found_or_null_witness :
  exists r,
    getListingById 99 example_runtime = (Fulfilled r, opened example_runtime) /\
    (r = None <-> forall l, In l (rows example_listings) -> id l <> 99) /\
    (forall l, r = Some l -> In l (rows example_listings) /\ id l = 99) /\
    (NoDup (map id (rows example_listings)) ->
     forall l, In l (rows example_listings) -> id l = 99 -> r = Some l).
Proof.
  apply (getListingById_found_or_null example_runtime example_listings 99).
  reflexivity.
Defined.

Lemma find_after_update (f : Listing -> Listing) (rs : list Listing) (i : Z) :
  (forall l, id (f l) = id l) ->
  find (fun l => id l =? i) (map f rs)
  = option_map f (find (fun l => id l =? i) rs).
Proof.
  intros Hf. induction rs as [|r rs IH]; simpl; [reflexivity|].
  rewrite Hf. now destruct (id r =? i).
Qed.

(** X7: what [updateListing] writes is what [getListingById] reads.  If
    [getListingById] finds a listing, then after [updateListing] with
    that id it finds the listing with the five new fields and the old
    [id], [creatorRoleId] and [createdAt]. *)
Theorem updateListing_then_getListingById
    (w : Runtime) (t : Table Listing) (l : Listing) (i : Z)
    (type : SitterType) (loc start_ end_ descr : string) :
  listings (file w) = Some t ->
  fst (getListingById i w) = Fulfilled (Some l) ->
  exists w',
    updateListing i type loc start_ end_ descr w = (Fulfilled tt, w') /\
    getListingById i w'
    = (Fulfilled
         (Some (mkListing i (creatorRoleId l) type loc start_ end_ descr
                  (createdAt l))),
       w').
Proof.
  intros H Hget. rewrite (getListingById_step w t i H) in Hget.
  simpl in Hget. injection Hget as Hfind.
  eexists. split; [exact (update_listings_step w t i _ _ _ _ _ H)|].
  erewrite getListingById_step by reflexivity. simpl.
  rewrite find_after_update by (intros r; now destruct (id r =? i)).
  rewrite Hfind. simpl. apply find_some in Hfind.
  destruct Hfind as [_ E]. rewrite E. apply Z.eqb_eq in E.
  unfold set_columns. now rewrite E.
Qed.

Lemma updateListing_then_getListingById_witness :
  exists w',
    updateListing 6 BOTH "Paarl" "2025-05-01" "2025-05-02" "Cats"
      example_runtime = (Fulfilled tt, w') /\
    getListingById 6 w'
    = (Fulfilled
         (Some (mkListing 6 2 BOTH "Paarl" "2025-05-01" "2025-05-02" "Cats"
                  "2025-01-02T08:30:00.000Z")),
       w').
Proof.
  apply (updateListing_then_getListingById example_runtime example_listings
           (mkListing 6 2 HOUSE "Knysna, Western Cape" "2025-04-01"
              "2025-04-09" "Keep an eye on the house"
              "2025-01-02T08:30:00.000Z")
           6 BOTH "Paarl" "2025-05-01" "2025-05-02" "Cats");
    reflexivity.
Defined.

(* ------------------------------------------------------------------ *)
(** ** Deleting, continued *)

Lemma filter_unchanged {A} (p : A -> bool) (l : list A) :
  (forall x, In x l -> p x = true) -> filter p l = l.
Proof.
  intros H. apply forallb_filter_id. now apply forallb_forall.
Qed.

(** X8: with the listings table in place [deleteListing] fulfils; the
    rows that remain are, in the same order, those with another id;
    [getListingById] then answers null for the id; and when no row had
    the id the database file is exactly as before. *)
Theorem deleteListing_effect (w : Runtime) (t : Table Listing) (i : Z) :
  listings (file w) = Some t ->
  exists w',
    deleteListing i w = (Fulfilled tt, w') /\
    listing_rows w' = filter (fun l => negb (id l =? i)) (rows t) /\
    (forall l, In l (listing_rows w') <-> In l (rows t) /\ id l <> i) /\
    listings_sequence w' = sqlite_sequence t /\
    getListingById i w' = (Fulfilled None, w') /\
    ((forall l, In l (rows t) -> id l <> i) -> file w' = file w).
Proof.
  intros H. eexists. split; [exact (deleteListing_step w t i H)|].
  split; [reflexivity|]. split.
  { intros l. unfold listing_rows. simpl.
    rewrite filter_In, negb_true_iff, Z.eqb_neq. tauto. }
  split; [reflexivity|]. split.
  { erewrite getListingById_step by reflexivity. simpl.
    destruct (find _ _) as [l|] eqn:E; [|reflexivity].
    apply find_some in E. destruct E as [Hl E].
    apply filter_In in Hl. destruct Hl as [_ Hl].
    rewrite E in Hl. discriminate. }
  intros Habsent. simpl. unfold after_delete.
  assert (existsb (fun l => id l =? i) (rows t) = false) as ->.
  { destruct (existsb _ _) eqn:E; [|reflexivity].
    apply existsb_exists in E. destruct E as (l & Hl & E).
    apply Z.eqb_eq in E. now destruct (Habsent l Hl). }
  rewrite andb_false_r, filter_unchanged.
  - destruct w as [d [lt st] clk n]. simpl in *. subst lt.
    destruct t, st; reflexivity.
  - intros l Hl. apply negb_true_iff, Z.eqb_neq. now apply Habsent.
Qed.

Lemma deleteListing_effect_witness :
  exists w',
    deleteListing 3 example_runtime = (Fulfilled tt, w') /\
    listing_rows w'
    = filter (fun l => negb (id l =? 3)) (rows example_listings) /\
    (forall l, In l (listing_rows w') <->
               In l (rows example_listings) /\ id l <> 3) /\
    listings_sequence w' = sqlite_sequence example_listings /\
    getListingById 3 w' = (Fulfilled None, w') /\
    ((forall l, In l (rows example_listings) -> id l <> 3) ->
     file w' = file example_runtime).
Proof.
  apply (deleteListing_effect example_runtime example_listings 3).
  reflexivity.
Defined.

(* ------------------------------------------------------------------ *)
(** ** Newest first *)

Lemma ltb_not_leb (a b : string) :
  String.ltb a b = true -> String.leb b a = false.
Proof.
  unfold String.ltb, String.leb. rewrite (String.compare_antisym b a).
  now destruct (String.compare a b).
Qed.

Lemma order_by_desc_newest {R} (key : R -> string) (l : list R) (x : R) :
  (forall y, In y l -> String.ltb (key y) (key x) = true) ->
  order_by_desc key (l ++ [x]) = x :: order_by_desc key l.
Proof.
  induction l as [|y l IH]; simpl; intros H; [reflexivity|].
  rewrite IH by auto. simpl.
  now rewrite (ltb_not_leb _ _ (H y (or_introl eq_refl))).
Qed.

(** X9: a new listing goes on top.  When the clock shows a time later
    than the [createdAt] of every stored listing, [getAllListings] after
    [createListing] returns the new listing first, followed by what
    [getAllListings] returned before. *)
Theorem createListing_newest_first
    (w : Runtime) (t : Table Listing)
    (creator : Z) (type : SitterType) (loc start_ end_ descr : string) :
  listings (file w) = Some t ->
  Z.max (sqlite_sequence t) (largest_rowid id (rows t)) < max_rowid ->
  (forall l, In l (rows t) ->
             String.ltb (createdAt l) (clock w (reads w)) = true) ->
  exists i w' before,
    createListing creator type loc start_ end_ descr w = (Fulfilled i, w') /\
    fst (getAllListings w) = Fulfilled before /\
    getAllListings w'
    = (Fulfilled
         (mkListing i creator type loc start_ end_ descr (clock w (reads w))
          :: before),
       w').
Proof.
  intros H Hroom Hlater.
  pose proof (new_rowid_room id t Hroom) as Hn.
  eexists. eexists. eexists. split.
  - unfold createListing. rewrite bind_getDatabase.
    unfold bind at 1. unfold Date_now_toISOString.
    unfold bind at 1. erewrite insert_into_listings_step; [|exact H|exact Hn].
    reflexivity.
  - split; [now rewrite (getAllListings_step w t H)|].
    erewrite getAllListings_step by reflexivity. simpl.
    rewrite filter_app. simpl.
    rewrite order_by_desc_newest; [reflexivity|].
    intros y Hy. apply filter_In in Hy. apply Hlater. tauto.
Qed.

Lemma createListing_newest_first_witness :
  exists i w' before,
    createListing 2 PET "Paarl" "2025-05-01" "2025-05-02" "Cats" example_runtime
    = (Fulfilled i, w') /\
    fst (getAllListings example_runtime) = Fulfilled before /\
    getAllListings w'
    = (Fulfilled
         (mkListing i 2 PET "Paarl" "2025-05-01" "2025-05-02" "Cats"
            (clock example_runtime (reads example_runtime))
          :: before),
       w').
Proof.
  apply (createListing_newest_first example_runtime example_listings
           2 PET "Paarl" "2025-05-01" "2025-05-02" "Cats").
  - reflexivity.
  - vm_compute. reflexivity.
  - apply (proj1 (forallb_forall _ _)). vm_compute. reflexivity.
Defined.

(* ------------------------------------------------------------------ *)
(** ** Bookmarks, continued *)

Lemma unsave_step (w : Runtime) (t : Table SavedListing) (l s : Z) :
  saved_listings (file w) = Some t ->
  unsaveListingForSitter l s w
  = (Fulfilled tt,
     with_file
       (with_saved_listings
          (mkTable (filter (fun sl => negb (same_pair l s sl)) (rows t))
                   (sqlite_sequence t))
          (file w))
       (opened w)).
Proof.
  intros H. unfold unsaveListingForSitter. rewrite bind_getDatabase.
  unfold delete_from_saved_listings_where_pair, table_saved_listings,
    put_saved_listings, bind, get_file, put_file, ret.
  simpl. now rewrite H.
Qed.

Lemma isListingSaved_step (w : Runtime) (t : Table SavedListing) (l s : Z) :
  saved_listings (file w) = Some t ->
  isListingSaved l s w
  = (Fulfilled (match find (same_pair l s) (rows t) with
                | Some _ => true
                | None => false
                end),
     opened w).
Proof.
  intros H. unfold isListingSaved. rewrite bind_getDatabase.
  unfold first_saved_with_pair, table_saved_listings, bind, get_file, ret.
  simpl. now rewrite H.
Qed.

Lemma find_filtered_out {A} (p : A -> bool) (l : list A) :
  find p (filter (fun x => negb (p x)) l) = None.
Proof.
  induction l as [|x l IH]; simpl; [reflexivity|].
  destruct (p x) eqn:E; simpl; [exact IH|]. now rewrite E.
Qed.

(** X10: with the bookmarks table in place [unsaveListingForSitter]
    fulfils whether or not the pair was saved; afterwards the pair has
    no bookmark and [isListingSaved] answers false, the bookmarks of all
    other pairs are kept in order, the listings are untouched, and when
    the pair had no bookmark the database file is exactly as before. *)
Theorem unsaveListingForSitter_effect
    (w : Runtime) (t : Table SavedListing) (l s : Z) :
  saved_listings (file w) = Some t ->
  exists w',
    unsaveListingForSitter l s w = (Fulfilled tt, w') /\
    saved_rows w' = filter (fun sl => negb (same_pair l s sl)) (rows t) /\
    bookmarks l s w' = 0%nat /\
    isListingSaved l s w' = (Fulfilled false, w') /\
    (forall l' s', (l', s') <> (l, s) ->
                   bookmarks l' s' w' = bookmarks l' s' w) /\
    listings (file w') = listings (file w) /\
    (bookmarks l s w = 0%nat -> file w' = file w).
Proof.
  intros H. eexists. split; [exact (unsave_step w t l s H)|].
  split; [reflexivity|]. split.
  { unfold bookmarks, saved_rows. simpl.
    induction (rows t) as [|sl r IH]; simpl; [reflexivity|].
    destruct (same_pair l s sl) eqn:E; simpl; [exact IH|]. now rewrite E. }
  split.
  { erewrite isListingSaved_step by reflexivity. simpl.
    now rewrite find_filtered_out. }
  split.
  { intros l' s' Hne. unfold bookmarks, saved_rows. simpl. rewrite H.
    induction (rows t) as [|sl r IH]; simpl; [reflexivity|].
    destruct (same_pair l s sl) eqn:E; simpl.
    - destruct (same_pair l' s' sl) eqn:E'; [|exact IH].
      unfold same_pair in E, E'.
      rewrite andb_true_iff, !Z.eqb_eq in E, E'. destruct Hne. f_equal; lia.
    - destruct (same_pair l' s' sl); simpl; now rewrite IH. }
  split; [reflexivity|].
  unfold bookmarks, saved_rows. rewrite H. intros Hzero. simpl.
  rewrite filter_unchanged.
  - destruct w as [d [lt st] clk n]. simpl in *. subst st. now destruct t.
  - intros sl Hsl. destruct (same_pair l s sl) eqn:E; [|reflexivity].
    exfalso.
    assert (In sl (filter (same_pair l s) (rows t))) as Hin
      by (apply filter_In; now split).
    destruct (filter (same_pair l s) (rows t)); [destruct Hin|discriminate].
Qed.

Lemma unsaveListingForSitter_effect_witness :
  exists w',
    unsaveListingForSitter 3 7 example_runtime = (Fulfilled tt, w') /\
    saved_rows w'
    = filter (fun sl => negb (same_pair 3 7 sl)) (rows example_saved_listings) /\
    bookmarks 3 7 w' = 0%nat /\
    isListingSaved 3 7 w' = (Fulfilled false, w') /\
    (forall l' s', (l', s') <> (3, 7) ->
                   bookmarks l' s' w' = bookmarks l' s' example_runtime) /\
    listings (file w') = listings (file example_runtime) /\
    (bookmarks 3 7 example_runtime = 0%nat -> file w' = file example_runtime).
Proof.
  apply (unsaveListingForSitter_effect example_runtime example_saved_listings
           3 7).
  reflexivity.
Defined.

Lemma save_step (w : Runtime) (t : Table SavedListing) (l s n : Z) :
  foreign_keys (connection w) = false ->
  saved_listings (file w) = Some t ->
  find (same_pair l s) (rows t) = None ->
  new_rowid saved_id t = Some n ->
  saveListingForSitter l s w
  = (Fulfilled tt,
     with_file
       (with_saved_listings
          (mkTable (rows t ++ [mkSavedListing n l s (clock w (reads w))]) n)
          (file w))
       (ticked (opened w))).
Proof.
  intros Hfk Ht Hf Hn. unfold saveListingForSitter. rewrite bind_getDatabase.
  unfold first_saved_with_pair, table_saved_listings, bind, get_file, ret.
  simpl. rewrite Ht, Hf. simpl.
  unfold insert_into_saved_listings, table_saved_listings, put_saved_listings,
    bind, get_file, put_file, ret.
  simpl. rewrite Ht, Hfk, Hn. reflexivity.
Qed.

(** X11: saving a pair for the first time.  On a connection that does
    not enforce foreign keys, with the bookmarks table in place, no
    bookmark for the pair and a rowid left, [saveListingForSitter]
    fulfils and appends one bookmark: a fresh id, the pair, and the
    clock reading as [savedAt].  The listings are untouched,
    [isListingSaved] then answers true, and nothing requires the listing
    to exist. *)
Theorem saveListingForSitter_inserts
    (w : Runtime) (t : Table SavedListing) (l s : Z) :
  foreign_keys (connection w) = false ->
  saved_listings (file w) = Some t ->
  bookmarks l s w = 0%nat ->
  Z.max (sqlite_sequence t) (largest_rowid saved_id (rows t)) < max_rowid ->
  exists n w',
    saveListingForSitter l s w = (Fulfilled tt, w') /\
    (forall sl, In sl (rows t) -> saved_id sl <> n) /\
    saved_rows w'
    = (rows t ++ [mkSavedListing n l s (clock w (reads w))])%list /\
    listings (file w') = listings (file w) /\
    isListingSaved l s w' = (Fulfilled true, w').
Proof.
  intros Hfk Ht Hzero Hroom.
  pose proof (new_rowid_room saved_id t Hroom) as Hn.
  destruct (new_rowid_fresh saved_id t _ Hn) as [_ Hfresh].
  assert (Hf : find (same_pair l s) (rows t) = None).
  { unfold bookmarks, saved_rows in Hzero. rewrite Ht in Hzero.
    destruct (find _ _) as [sl|] eqn:E; [|reflexivity].
    apply find_some_count in E. simpl in Hzero. exfalso. lia. }
  set (n := Z.max (sqlite_sequence t) (largest_rowid saved_id (rows t)) + 1)
    in *.
  exists n. eexists. split; [exact (save_step w t l s n Hfk Ht Hf Hn)|].
  split. { intros sl Hsl E. apply Hfresh in Hsl. lia. }
  split; [reflexivity|]. split; [reflexivity|].
  erewrite isListingSaved_step by reflexivity. simpl.
  rewrite find_appended; [reflexivity| |now apply same_pair_eq].
  intros y Hy. eapply find_none in Hf; eauto.
Qed.

Lemma saveListingForSitter_inserts_witness :
  exists n w',
    saveListingForSitter 42 7 example_runtime = (Fulfilled tt, w') /\
    (forall sl, In sl (rows example_saved_listings) -> saved_id sl <> n) /\
    saved_rows w'
    = (rows example_saved_listings ++
       [mkSavedListing n 42 7
          (clock example_runtime (reads example_runtime))])%list /\
    listings (file w') = listings (file example_runtime) /\
    isListingSaved 42 7 w' = (Fulfilled true, w').
Proof.
  apply (saveListingForSitter_inserts example_runtime example_saved_listings
           42 7).
  - reflexivity.
  - reflexivity.
  - vm_compute. reflexivity.
  - vm_compute. reflexivity.
Defined.

Lemma filter_appended_out {A} (p : A -> bool) (l : list A) (x : A) :
  (forall y, In y l -> p y = true) -> p x = false ->
  filter p (l ++ [x]) = l.
Proof.
  intros Hl Hx. rewrite filter_app. simpl. rewrite Hx, app_nil_r.
  now apply filter_unchanged.
Qed.

Lemma saveListingForSitter_keeps_listings (l s : Z) (w : Runtime) :
  listings (file (snd (saveListingForSitter l s w))) = listings (file w).
Proof.
  unfold saveListingForSitter. rewrite bind_getDatabase.
  unfold first_saved_with_pair, table_saved_listings, bind, get_file, ret,
    throw.
  simpl. destruct (saved_listings (file w)) as [t|] eqn:Et; simpl;
    [|reflexivity].
  destruct (find (same_pair l s) (rows t)); simpl; [reflexivity|].
  unfold insert_into_saved_listings, table_saved_listings, put_saved_listings,
    bind, get_file, put_file, ret, throw.
  simpl. rewrite Et.
  destruct (foreign_keys (connection w) && _); simpl; [reflexivity|].
  destruct (new_rowid saved_id t); reflexivity.
Qed.

Lemma unsaveListingForSitter_keeps_listings (l s : Z) (w : Runtime) :
  listings (file (snd (unsaveListingForSitter l s w))) = listings (file w).
Proof.
  unfold unsaveListingForSitter. rewrite bind_getDatabase.
  unfold delete_from_saved_listings_where_pair, table_saved_listings,
    put_saved_listings, bind, get_file, put_file, ret, throw.
  simpl. destruct (saved_listings (file w)); reflexivity.
Qed.

Lemma no_bookmark_no_match (l s : Z) (w : Runtime) :
  bookmarks l s w = 0%nat ->
  forall sl, In sl (saved_rows w) -> same_pair l s sl = false.
Proof.
  intros Hzero sl Hsl. destruct (same_pair l s sl) eqn:E; [|reflexivity].
  exfalso. unfold bookmarks in Hzero.
  assert (In sl (filter (same_pair l s) (saved_rows w))) as Hin
    by (apply filter_In; now split).
  destruct (filter _ _); [destruct Hin|discriminate].
Qed.

(** X12: unsaving undoes saving.  If a pair without bookmark is saved
    and then unsaved, the bookmarks are the same rows as before, in the
    same order, and so are the listings; only the rowid counter of the
    bookmarks table may have moved on. *)
Theorem save_then_unsave (w w1 : Runtime) (l s : Z) :
  bookmarks l s w = 0%nat ->
  saveListingForSitter l s w = (Fulfilled tt, w1) ->
  exists w2,
    unsaveListingForSitter l s w1 = (Fulfilled tt, w2) /\
    saved_rows w2 = saved_rows w /\
    bookmarks l s w2 = 0%nat /\
    listings (file w2) = listings (file w).
Proof.
  intros Hzero Hsave.
  pose proof (no_bookmark_no_match l s w Hzero) as Hnone.
  destruct (saveListingForSitter_fulfilled _ _ _ _ Hsave)
    as (_ & t1 & sl & Et1 & Ef1).
  pose proof (saveListingForSitter_rows l s w) as Hrows.
  pose proof (saveListingForSitter_keeps_listings l s w) as Hl.
  rewrite Hsave in Hrows, Hl. simpl in Hrows, Hl.
  assert (Hr1 : saved_rows w1 = rows t1)
    by (unfold saved_rows; now rewrite Et1).
  assert (Hback : filter (fun x => negb (same_pair l s x)) (rows t1)
                  = saved_rows w).
  { rewrite <- Hr1. destruct Hrows as [E|(_ & n & at_ & E)].
    - exfalso. apply find_some in Ef1. destruct Ef1 as [Hin Hp].
      rewrite <- Hr1, E in Hin. apply Hnone in Hin. congruence.
    - rewrite E. apply filter_appended_out.
      + intros y Hy. now rewrite (Hnone y Hy).
      + apply negb_false_iff. now apply same_pair_eq. }
  eexists. split; [exact (unsave_step w1 t1 l s Et1)|].
  split; [exact Hback|]. split.
  - unfold bookmarks. unfold saved_rows at 1. simpl. rewrite Hback.
    exact Hzero.
  - exact Hl.
Qed.

Lemma save_then_unsave_witness :
  exists w2,
    unsaveListingForSitter 4 7 (snd (saveListingForSitter 4 7 example_runtime))
    = (Fulfilled tt, w2) /\
    saved_rows w2 = saved_rows example_runtime /\
    bookmarks 4 7 w2 = 0%nat /\
    listings (file w2) = listings (file example_runtime).
Proof.
  apply (save_then_unsave example_runtime
           (snd (saveListingForSitter 4 7 example_runtime)) 4 7).
  - vm_compute. reflexivity.
  - vm_compute. reflexivity.
Defined.

Lemma in_saved_join (sitter : Z) (ls : list Listing) (sls : list SavedListing)
    (li : Listing) :
  In li (map fst (order_by_desc (fun p => savedAt (snd p))
                    (joined sitter ls sls)))
  <-> In li ls /\
      exists sl, In sl sls /\ listingId sl = id li /\ sitterRoleId sl = sitter.
Proof.
  rewrite in_map_iff. split.
  - intros ([l' sl] & E & Hp). simpl in E. subst l'.
    rewrite order_by_desc_In, joined_product, filter_In, in_prod_iff in Hp.
    unfold joins_for in Hp. simpl in Hp.
    rewrite andb_true_iff, !Z.eqb_eq in Hp.
    split; [tauto|]. exists sl. tauto.
  - intros (Hl & sl & Hsl & Hid & Hsit). exists (li, sl).
    split; [reflexivity|].
    rewrite order_by_desc_In, joined_product, filter_In, in_prod_iff.
    unfold joins_for. simpl. rewrite andb_true_iff, !Z.eqb_eq. tauto.
Qed.

(** X13: the two views of a bookmark agree.  For a listing that is in
    the table, [isListingSaved] answers true for a sitter exactly when
    [getSavedListingsForSitter] for that sitter returns the listing. *)
Theorem isListingSaved_iff_in_saved_list
    (w : Runtime) (t : Table Listing) (s : Table SavedListing)
    (li : Listing) (sitter : Z) :
  listings (file w) = Some t ->
  saved_listings (file w) = Some s ->
  In li (rows t) ->
  exists b r,
    isListingSaved (id li) sitter w = (Fulfilled b, opened w) /\
    getSavedListingsForSitter sitter w = (Fulfilled r, opened w) /\
    (b = true <-> In li r).
Proof.
  intros Ht Hs Hli. eexists. eexists.
  split; [exact (isListingSaved_step w s (id li) sitter Hs)|].
  split.
  { unfold getSavedListingsForSitter. rewrite bind_getDatabase.
    exact (select_saved_join_step (opened w) t s sitter Ht Hs). }
  rewrite in_saved_join. split.
  - destruct (find _ _) as [sl|] eqn:E; [intros _|discriminate].
    apply find_some in E. destruct E as [Hsl E].
    unfold same_pair in E. rewrite andb_true_iff, !Z.eqb_eq in E.
    split; [exact Hli|]. exists sl. tauto.
  - intros (_ & sl & Hsl & Hid & Hsit).
    destruct (find _ _) eqn:E; [reflexivity|].
    eapply find_none in E; eauto. unfold same_pair in E.
    rewrite Hid, Hsit, !Z.eqb_refl in E. discriminate.
Qed.

Lemma isListingSaved_iff_in_saved_list_witness :
  exists b r,
    isListingSaved 3 7 example_runtime = (Fulfilled b, opened example_runtime) /\
    getSavedListingsForSitter 7 example_runtime
    = (Fulfilled r, opened example_runtime) /\
    (b = true <->
     In (mkListing 3 1 BOTH "Johannesburg, Gauteng" "2025-03-05" "2025-03-15"
           "Looking for someone to watch our house and take care of our dog. Dog needs daily walks."
           "2025-01-01T10:00:00.002Z") r).
Proof.
  apply (isListingSaved_iff_in_saved_list example_runtime example_listings
           example_saved_listings
           (mkListing 3 1 BOTH "Johannesburg, Gauteng" "2025-03-05"
              "2025-03-15"
              "Looking for someone to watch our house and take care of our dog. Dog needs daily walks."
              "2025-01-01T10:00:00.002Z") 7).
  - reflexivity.
  - reflexivity.
  - vm_compute. tauto.
Defined.

(* ------------------------------------------------------------------ *)
(** ** Two tables, kept apart *)

(** X14: listings and bookmarks are written by different calls.
    Initialising, creating, updating and all reads leave the bookmark
    rows as they are; saving, unsaving and all reads leave the listings
    table as it is; this holds however the call settles. *)
Theorem calls_keep_the_other_table (c : Call) (w : Runtime) :
  match c with
  | Delete _ | Save _ _ | Unsave _ _ => True
  | _ => saved_rows (perform c w) = saved_rows w
  end /\
  match c with
  | Initialize | Create _ _ _ _ _ _ | Update _ _ _ _ _ _ | Delete _ => True
  | _ => listings (file (perform c w)) = listings (file w)
  end.
Proof.
  pose proof (frame_saved_rows (saved_rows w)) as F.
  split.
  - destruct c; simpl; try exact I;
      first [ apply (stable_initDatabase _ F)
            | apply (stable_createListing _ F)
            | apply (stable_getAllListings _ F)
            | apply (stable_getListingsByCreator _ F)
            | apply (stable_getListingById _ F)
            | apply (stable_filterListingsByType _ F)
            | apply (stable_updateListing _ F)
            | apply (stable_isListingSaved _ F)
            | apply (stable_getSavedListingsForSitter _ F) ];
      reflexivity.
  - destruct c; simpl; try exact I;
      try apply saveListingForSitter_keeps_listings;
      try apply unsaveListingForSitter_keeps_listings;
      try destruct type;
      destruct w as [[d|] [[lt|] [st|]] clk n]; reflexivity.
Qed.

(* ------------------------------------------------------------------ *)
(** ** Initialisation, continued *)

Lemma largest_rowid_app {R} (rowid : R -> Z) (l l' : list R) :
  largest_rowid rowid (l ++ l')
  = Z.max (largest_rowid rowid l) (largest_rowid rowid l').
Proof.
  induction l as [|x l IH]; simpl.
  - pose proof (largest_rowid_nonneg rowid l'). lia.
  - rewrite IH. lia.
Qed.

Lemma seeding_loop_room (samples : list SampleListing) :
  forall (w : Runtime) (t : Table Listing),
    listings (file w) = Some t ->
    Z.max (sqlite_sequence t) (largest_rowid id (rows t))
      + Z.of_nat (List.length samples) <= max_rowid ->
    exists w',
      for_of samples
        (fun listing =>
           insert_into_listings
             (sample_creatorRoleId listing) (sample_sitterType listing)
             (sample_location listing) (sample_startDate listing)
             (sample_endDate listing) (sample_description listing)
             (sample_createdAt listing) ;;;
           ret tt) w = (Fulfilled tt, w').
Proof.
  induction samples as [|x samples IH]; intros w t Ht Hroom.
  - eexists. reflexivity.
  - cbn [for_of]. unfold bind at 1. unfold bind at 1.
    cbn [List.length] in Hroom.
    assert (Hlt : Z.max (sqlite_sequence t) (largest_rowid id (rows t))
                  < max_rowid) by lia.
    rewrite (insert_into_listings_step w t _ _ _ _ _ _ _ _ Ht
               (new_rowid_room id t Hlt)).
    unfold ret at 1. eapply IH; [reflexivity|].
    cbn [rows sqlite_sequence]. rewrite largest_rowid_app.
    cbn [largest_rowid fold_right id]. rewrite Nat2Z.inj_succ in Hroom.
    pose proof (largest_rowid_nonneg id (rows t)). lia.
Qed.

(** X15: initialisation fails only when rowids run out.  On a store that
    has listings [initDatabase] is always fulfilled, and on one that has
    none it is fulfilled as soon as five more rowids fit above
    [sqlite_sequence]. *)
Theorem initDatabase_fulfils (w : Runtime) :
  (listing_rows w = [] -> listings_sequence w + 5 <= max_rowid) ->
  exists w', initDatabase w = (Fulfilled tt, w').
Proof.
  intros Hroom. rewrite initDatabase_unfold.
  destruct (listing_rows w) as [|r rs] eqn:Er; [|eexists; reflexivity].
  specialize (Hroom eq_refl).
  unfold seedSampleData. unfold bind at 1.
  destruct (sampleListings_step (with_file (with_schema (file w)) (opened w)))
    as (samples & -> & Hlen & _).
  eapply seeding_loop_room; [reflexivity|].
  rewrite Hlen. unfold listing_rows, listings_sequence in *. simpl.
  destruct (listings (file w)) as [t|]; cbn [rows sqlite_sequence] in *.
  - rewrite Er. cbn [largest_rowid fold_right]. unfold max_rowid in *. lia.
  - cbn [largest_rowid fold_right]. unfold max_rowid. lia.
Qed.

Lemma initDatabase_fulfils_witness :
  exists w',
    initDatabase (session [Initialize; Delete 1; Delete 2; Delete 3; Delete 4;
                           Delete 5] (first_launch example_clock))
    = (Fulfilled tt, w').
Proof.
  apply initDatabase_fulfils. intros _. vm_compute. discriminate.
Defined.

(* ------------------------------------------------------------------ *)
(** ** The My Listings screen *)

Lemma getListingsByCreator_step (w : Runtime) (t : Table Listing) (c : Z) :
  listings (file w) = Some t ->
  getListingsByCreator c w
  = (Fulfilled
       (order_by_desc createdAt (filter (fun l => creatorRoleId l =? c) (rows t))),
     opened w).
Proof.
  intros H. unfold getListingsByCreator. rewrite bind_getDatabase.
  exact (select_listings_step _ (opened w) t H).
Qed.

(** X16: loading the screen.  With the listings table in place
    [loadListings] raises no alert, ends with [loading] off and shows
    exactly the listings of requester 1, each once per row of the
    table, newest first; the screen renders "No listings yet" exactly
    when that requester has none.  Without the table it keeps the list
    it had and raises one error alert. *)
Theorem loadListings_shows_own_listings (scr : ScreenState) (w : Runtime) :
  (forall t, listings (file w) = Some t ->
     exists data w',
       loadListings scr w = (mkScreen data false, [], w') /\
       Permutation data
         (filter (fun l => creatorRoleId l =? MOCK_REQUESTER_ROLE_ID) (rows t)) /\
       (forall l, In l data <-> In l (rows t) /\ creatorRoleId l = 1) /\
       StronglySorted (desc createdAt) data /\
       file w' = file w /\
       (render (mkScreen data false) = NoListingsYet <->
        forall l, In l (rows t) -> creatorRoleId l <> 1)) /\
  (listings (file w) = None ->
     exists w',
       loadListings scr w
       = (mkScreen (shown scr) false,
          [("Error", "Failed to load listings")%string], w') /\
       file w' = file w).
Proof.
  split.
  - intros t Ht. unfold loadListings.
    rewrite (getListingsByCreator_step w t _ Ht).
    eexists. eexists. split; [reflexivity|].
    split; [apply order_by_desc_perm|].
    assert (Hin : forall l,
               In l (order_by_desc createdAt
                       (filter (fun l => creatorRoleId l =? MOCK_REQUESTER_ROLE_ID)
                               (rows t)))
               <-> In l (rows t) /\ creatorRoleId l = 1).
    { intros l. rewrite order_by_desc_In, filter_In, Z.eqb_eq. tauto. }
    split; [exact Hin|]. split; [apply order_by_desc_sorted|].
    split; [reflexivity|].
    unfold render. simpl.
    destruct (order_by_desc _ _) as [|x r] eqn:E; simpl.
    + split; [|reflexivity]. intros _ l Hl Hc.
      destruct (proj2 (Hin l) (conj Hl Hc)).
    + split; [discriminate|]. intros Hnone.
      destruct (proj1 (Hin x) (or_introl eq_refl)) as [Hx Hc].
      now destruct (Hnone x Hx).
  - intros Hn. unfold loadListings, getListingsByCreator.
    rewrite bind_getDatabase.
    unfold select_listings, table_listings, bind, get_file, throw.
    simpl. rewrite Hn. eexists. split; reflexivity.
Qed.

Lemma loadListings_shows_own_listings_witness :
  exists data w',
    loadListings (mkScreen [] true) example_runtime
    = (mkScreen data false, [], w') /\
    Permutation data
      (filter (fun l => creatorRoleId l =? MOCK_REQUESTER_ROLE_ID)
         (rows example_listings)) /\
    (forall l, In l data <->
               In l (rows example_listings) /\ creatorRoleId l = 1) /\
    StronglySorted (desc createdAt) data /\
    file w' = file example_runtime /\
    (render (mkScreen data false) = NoListingsYet <->
     forall l, In l (rows example_listings) -> creatorRoleId l <> 1).
Proof.
  apply (proj1 (loadListings_shows_own_listings (mkScreen [] true)
                  example_runtime) example_listings).
  reflexivity.
Defined.

(** X17: deleting from the screen.  With the listings table in place,
    confirming the dialog deletes the listing, raises the success alert
    alone and reloads: the table keeps, in order, the rows with another
    id, and the screen shows exactly those of them that belong to
    requester 1, each once per row, newest first.  Cancelling changes
    neither the screen nor the store. *)
Theorem handleDelete_reloads (scr : ScreenState) (w : Runtime)
    (t : Table Listing) (listingId : Z) :
  listings (file w) = Some t ->
  (exists data w',
      handleDelete listingId DeleteButton scr w
      = (mkScreen data false, [("Success", "Listing deleted")%string], w') /\
      listing_rows w' = filter (fun l => negb (id l =? listingId)) (rows t) /\
      Permutation data
        (filter (fun l => creatorRoleId l =? MOCK_REQUESTER_ROLE_ID)
           (filter (fun l => negb (id l =? listingId)) (rows t))) /\
      (forall l, In l data <->
                 In l (rows t) /\ creatorRoleId l = 1 /\ id l <> listingId) /\
      StronglySorted (desc createdAt) data /\
      (forall l, In l (listing_rows w') <-> In l (rows t) /\ id l <> listingId)) /\
  handleDelete listingId CancelButton scr w = (scr, [], w).
Proof.
  intros Ht. split; [|reflexivity].
  unfold handleDelete. rewrite (deleteListing_step w t listingId Ht).
  unfold loadListings.
  erewrite getListingsByCreator_step by reflexivity.
  eexists. eexists. split; [reflexivity|].
  split; [reflexivity|].
  split; [apply order_by_desc_perm|].
  split; [|split; [apply order_by_desc_sorted|]].
  - intros l. cbn [rows]. unfold after_delete.
    rewrite order_by_desc_In, !filter_In, Z.eqb_eq, negb_true_iff, Z.eqb_neq.
    unfold MOCK_REQUESTER_ROLE_ID. tauto.
  - intros l. unfold listing_rows. simpl.
    rewrite filter_In, negb_true_iff, Z.eqb_neq. tauto.
Qed.

Lemma handleDelete_reloads_witness :
  (exists data w',
      handleDelete 3 DeleteButton (mkScreen [] true) example_runtime
      = (mkScreen data false, [("Success", "Listing deleted")%string], w') /\
      listing_rows w'
      = filter (fun l => negb (id l =? 3)) (rows example_listings) /\
      Permutation data
        (filter (fun l => creatorRoleId l =? MOCK_REQUESTER_ROLE_ID)
           (filter (fun l => negb (id l =? 3)) (rows example_listings))) /\
      (forall l, In l data <->
                 In l (rows example_listings) /\ creatorRoleId l = 1 /\
                 id l <> 3) /\
      StronglySorted (desc createdAt) data /\
      (forall l, In l (listing_rows w') <->
                 In l (rows example_listings) /\ id l <> 3)) /\
  handleDelete 3 CancelButton (mkScreen [] true) example_runtime
  = (mkScreen [] true, [], example_runtime).
Proof.
  apply (handleDelete_reloads (mkScreen [] true) example_runtime
           example_listings 3).
  reflexivity.
Defined.

(** The screen on the example store, before and after deleting sample 3. *)
Example screen_after_delete :
  map id (shown (fst (fst (loadListings (mkScreen [] true) example_runtime))))
  = [5; 4; 3; 2; 1] /\
  map id (shown (fst (fst (handleDelete 3 DeleteButton (mkScreen [] true)
                             example_runtime))))
  = [5; 4; 2; 1].
Proof. vm_compute. split; reflexivity. Qed.
